(** * Domain routing, custom-domain reconciliation and cache provisioning
      of twenty-server, embedded in Rocq.

    Sources embedded here:
    - [domain-manager.service.ts]  (class [DomainManagerService])
    - [cache-storage.module-factory.ts]  ([cacheStorageModuleFactory])
    - the custom-hostname webhook of [CloudflareController], of which only
      the test-suite is available; its handler is modelled from the
      specification and marked as such. *)

From Stdlib Require Import String Ascii List ZArith Bool Arith Lia.
From Stdlib Require Import DecimalString.
Import ListNotations.

Open Scope string_scope.
Open Scope bool_scope.

(* ================================================================== *)
(** ** JavaScript values used by the services *)

(** The string methods the service calls, on byte strings.  Hostnames that
    come out of the URL parser are ASCII, so one byte is one code unit. *)
Module JsString.

(** [s.startsWith(pat)] *)
Fixpoint startsWith (s pat : string) {struct pat} : bool :=
  match pat, s with
  | EmptyString, _ => true
  | String a pat', String b s' => Ascii.eqb a b && startsWith s' pat'
  | String _ _, EmptyString => false
  end.

(** [s.slice(n)] for [0 <= n] *)
Fixpoint slice (n : nat) (s : string) : string :=
  match n, s with
  | O, _ => s
  | S n', String _ s' => slice n' s'
  | S _, EmptyString => EmptyString
  end.

(** [s.endsWith(suf)]: the last [suf.length] code units of [s] are [suf]. *)
Definition endsWith (s suf : string) : bool :=
  (String.length suf <=? String.length s)%nat
  && String.eqb (slice (String.length s - String.length suf) s) suf.

(** [s.indexOf(pat)], with [None] for [-1]. *)
Fixpoint indexOf (s pat : string) {struct s} : option nat :=
  if startsWith s pat then Some O
  else match s with
       | EmptyString => None
       | String _ s' => option_map S (indexOf s' pat)
       end.

(** [s.replace(pat, rep)] with a string pattern: only the first
    occurrence of [pat] is replaced.  ([rep] is used literally; the
    service only ever passes the empty string.) *)
Fixpoint replace (s pat rep : string) {struct s} : string :=
  if startsWith s pat then rep ++ slice (String.length pat) s
  else match s with
       | EmptyString => EmptyString
       | String c s' => String c (replace s' pat rep)
       end.

(** Truthiness of a string: every string but the empty one. *)
Definition truthy (s : string) : bool := negb (String.eqb s "").

(** Truthiness of [string | undefined] / [string | null]. *)
Definition truthy_opt (o : option string) : bool :=
  match o with
  | Some s => truthy s
  | None => false
  end.

(** A template-literal hole filled with [string | undefined]. *)
Definition interpolate (o : option string) : string :=
  match o with
  | Some s => s
  | None => "undefined"
  end.

(** [n.toString()] for an integral number. *)
Definition of_Z (n : Z) : string := NilZero.string_of_int (Z.to_int n).

Definition of_nat (n : nat) : string := of_Z (Z.of_nat n).

Definition opt_eqb (a b : option string) : bool :=
  match a, b with
  | Some x, Some y => String.eqb x y
  | None, None => true
  | _, _ => false
  end.

End JsString.

(** Modelled from the spec: [isDefined] of the package [twenty-shared] is
    not part of the sources at hand.  A value is defined when it is
    present; [None] stands for the absent value ([undefined] or [null]). *)
Definition isDefined {A : Type} (v : option A) : bool :=
  match v with
  | Some _ => true
  | None => false
  end.

(** Results of code that may throw. *)
Inductive Outcome (A : Type) : Type :=
| Return (a : A)
| Throw (message : string).
Arguments Return {A} a.
Arguments Throw {A} message.

Definition obind {A B : Type} (o : Outcome A) (k : A -> Outcome B) : Outcome B :=
  match o with
  | Return a => k a
  | Throw m => Throw m
  end.

Declare Scope outcome_scope.
Delimit Scope outcome_scope with outcome.
Notation "'let!' x ':=' c 'in' k" := (obind c (fun x => k))
  (at level 10, x name, c at level 100, k at level 200) : outcome_scope.

(* ================================================================== *)
(** ** The platform's URL class

    The service never parses URLs itself: it goes through the [URL] class
    of the host platform.  The operations it uses form this interface; a
    URL object that the code mutates in place is threaded as a value. *)
Class URLApi : Type := {
  URL : Type;
  (** [new URL(s)]; throws on input that is not a URL *)
  URL_new : string -> Outcome URL;
  (** [url.toString()] *)
  URL_toString : URL -> string;
  (** [url.hostname] *)
  URL_hostname : URL -> string;
  (** [url.hostname = h] *)
  URL_set_hostname : URL -> string -> URL;
  (** [url.port = p] *)
  URL_set_port : URL -> string -> URL;
  (** [url.protocol = p] *)
  URL_set_protocol : URL -> string -> URL;
  (** [url.pathname = p] *)
  URL_set_pathname : URL -> string -> URL;
  (** [url.searchParams.set(k, v)] *)
  URL_searchParams_set : URL -> string -> string -> URL
}.

(* ================================================================== *)
(** ** Configuration read through [EnvironmentService.get] *)
Record Environment : Type := {
  FRONT_PORT : option Z;
  FRONT_DOMAIN : option string;
  FRONT_PROTOCOL : option string;
  SERVER_URL : string;
  IS_MULTIWORKSPACE_ENABLED : bool;
  DEFAULT_SUBDOMAIN : option string;
  CACHE_STORAGE_TYPE : string;
  CACHE_STORAGE_TTL : Z;
  REDIS_URL : option string
}.

(** Truthiness of an integral number: every one but zero. *)
Definition truthy_number (n : Z) : bool := negb (Z.eqb n 0).

(* ================================================================== *)
(** ** The workspace entity and what [getSubdomainAndCustomDomainFromUrl]
       returns *)
Module Workspace.
(** The columns of [Workspace] that the code at hand reads or writes.
    [customDomain = None] is SQL/JS [null]. *)
Record t : Type := {
  subdomain : string;
  customDomain : option string;
  isCustomDomainEnabled : bool;
  createdAt : Z
}.
End Workspace.

Module OriginKey.
(** [{ subdomain: string | undefined, customDomain: string | null }] *)
Record t : Type := {
  subdomain : option string;
  customDomain : option string
}.
End OriginKey.

(* ================================================================== *)
(** ** [DomainManagerService], the part without repository access *)
Section DomainManagerPure.
Context {api : URLApi}.
Variable env : Environment.

Local Open Scope outcome_scope.

Definition getFrontUrl : Outcome URL :=
  let frontPort := FRONT_PORT env in
  let frontDomain := FRONT_DOMAIN env in
  let frontProtocol := FRONT_PROTOCOL env in
  let serverUrl := SERVER_URL env in
  let! baseUrl :=
    (if negb (JsString.truthy_opt frontDomain)
     then URL_new serverUrl
     else URL_new (JsString.interpolate frontProtocol ++ "://"
                   ++ JsString.interpolate frontDomain)) in
  let baseUrl :=
    match frontPort with
    | Some p => if truthy_number p
                then URL_set_port baseUrl (JsString.of_Z p) else baseUrl
    | None => baseUrl
    end in
  let baseUrl :=
    match frontProtocol with
    | Some p => if JsString.truthy p
                then URL_set_protocol baseUrl p else baseUrl
    | None => baseUrl
    end in
  Return baseUrl.

Definition isDefaultSubdomain (subdomain : string) : bool :=
  JsString.opt_eqb (Some subdomain) (DEFAULT_SUBDOMAIN env).

Definition getSubdomainAndCustomDomainFromUrl (url : string)
  : Outcome OriginKey.t :=
  let! origin := URL_new url in
  let originHostname := URL_hostname origin in
  let! front := getFrontUrl in
  let frontDomain := URL_hostname front in
  let isFrontdomain := JsString.endsWith originHostname ("." ++ frontDomain) in
  let subdomain := JsString.replace originHostname ("." ++ frontDomain) "" in
  Return {| OriginKey.subdomain :=
              if isFrontdomain && negb (isDefaultSubdomain subdomain)
              then Some subdomain else None;
            OriginKey.customDomain :=
              if isFrontdomain then None else Some originHostname |}.

End DomainManagerPure.

(** Values of [Record<string, string | number>]; an entry may still hold
    [undefined] at run time, which is what the service tests for. *)
Inductive ParamValue : Type :=
| PString (s : string)
| PNumber (n : Z).

Definition ParamValue_toString (v : ParamValue) : string :=
  match v with
  | PString s => s
  | PNumber n => JsString.of_Z n
  end.

(** [Object.entries(searchParams)], in order. *)
Definition SearchParams : Type := list (string * option ParamValue).

Module WorkspaceUrls.
(** [{ customUrl: string | undefined, subdomainUrl: string }] *)
Record t : Type := {
  customUrl : option string;
  subdomainUrl : string
}.
End WorkspaceUrls.

(** [CustomDomainValidRecords]: only the field the service reads. *)
Record CustomDomainRecord : Type := { status : string }.
Record CustomDomainValidRecords : Type := { records : list CustomDomainRecord }.

Section DomainManagerUrls.
Context {api : URLApi}.
Variable env : Environment.

Local Open Scope outcome_scope.

Definition getBaseUrl : Outcome URL :=
  let! baseUrl := getFrontUrl env in
  if IS_MULTIWORKSPACE_ENABLED env
     && JsString.truthy_opt (DEFAULT_SUBDOMAIN env)
  then Return (URL_set_hostname baseUrl
                 (JsString.interpolate (DEFAULT_SUBDOMAIN env)
                  ++ "." ++ URL_hostname baseUrl))
  else Return baseUrl.

Definition getCustomWorkspaceUrl (customDomain : string) : Outcome string :=
  let! url := getFrontUrl env in
  let url := URL_set_hostname url customDomain in
  Return (URL_toString url).

Definition getTwentyWorkspaceUrl (subdomain : string) : Outcome string :=
  let! url := getFrontUrl env in
  let url := URL_set_hostname url (subdomain ++ "." ++ URL_hostname url) in
  Return (URL_toString url).

Definition getWorkspaceUrls (workspace : Workspace.t)
  : Outcome WorkspaceUrls.t :=
  let! customUrl :=
    (match Workspace.customDomain workspace with
     | Some customDomain =>
         if Workspace.isCustomDomainEnabled workspace
            && JsString.truthy customDomain
         then let! u := getCustomWorkspaceUrl customDomain in Return (Some u)
         else Return None
     | None => Return None
     end) in
  let! subdomainUrl := getTwentyWorkspaceUrl (Workspace.subdomain workspace) in
  Return {| WorkspaceUrls.customUrl := customUrl;
            WorkspaceUrls.subdomainUrl := subdomainUrl |}.

(** One turn of the [forEach] over the entries. *)
Definition setSearchParam (url : URL) (entry : string * option ParamValue)
  : URL :=
  let (key, value) := entry in
  if isDefined value
  then match value with
       | Some v => URL_searchParams_set url key (ParamValue_toString v)
       | None => url
       end
  else url.

Definition buildWorkspaceURL (workspace : Workspace.t)
    (pathname : option string) (searchParams : option SearchParams)
  : Outcome URL :=
  let! workspaceUrls := getWorkspaceUrls workspace in
  let! url :=
    URL_new (match WorkspaceUrls.customUrl workspaceUrls with
             | Some customUrl => customUrl
             | None => WorkspaceUrls.subdomainUrl workspaceUrls
             end) in
  let url :=
    if JsString.truthy_opt pathname
    then URL_set_pathname url (JsString.interpolate pathname) else url in
  let url :=
    match searchParams with
    | Some entries => fold_left setSearchParam entries url
    | None => url
    end in
  Return url.

Definition buildEmailVerificationURL (emailVerificationToken email : string)
    (workspace : Workspace.t) : Outcome URL :=
  buildWorkspaceURL workspace (Some "verify-email")
    (Some [("emailVerificationToken", Some (PString emailVerificationToken));
           ("email", Some (PString email))]).

Definition computeRedirectErrorUrl (errorMessage : string)
    (workspace : Workspace.t) : Outcome string :=
  let! url := buildWorkspaceURL workspace (Some "/verify")
                (Some [("errorMessage", Some (PString errorMessage))]) in
  Return (URL_toString url).

Definition isCustomDomainWorking (customDomainDetails : CustomDomainValidRecords)
  : bool :=
  forallb (fun r => String.eqb (status r) "success")
          (records customDomainDetails).

End DomainManagerUrls.

(* ================================================================== *)
(** ** The workspace repository and the other collaborators

    The repository is a table of rows; a call on a collaborator is kept in
    a journal, oldest first, so that what a request did can be inspected. *)
Inductive Where : Type :=
| WhereSubdomain (subdomain : string)
| WhereCustomDomain (customDomain : string).

Inductive Event : Type :=
| RepositoryFindOne (where_ : Where)
| RepositoryFind
| RepositorySave (row : Workspace.t)
| LoggerWarn (message : string)
| CustomDomainDetailsLookup (hostname : string)
| ExceptionCaptured (message : string).

Record World : Type := {
  rows : list Workspace.t;
  journal : list Event
}.

(** Effectful code: it reads and updates the world, and returns or throws. *)
Definition M (A : Type) : Type := World -> Outcome A * World.

Definition ret {A : Type} (a : A) : M A := fun w => (Return a, w).

Definition throw {A : Type} (message : string) : M A :=
  fun w => (Throw message, w).

Definition bind {A B : Type} (c : M A) (k : A -> M B) : M B :=
  fun w =>
    match c w with
    | (Return a, w') => k a w'
    | (Throw m, w') => (Throw m, w')
    end.

(** [try { c } catch (e) { handler(e) }] *)
Definition try_catch {A : Type} (c : M A) (handler : string -> M A) : M A :=
  fun w =>
    match c w with
    | (Return a, w') => (Return a, w')
    | (Throw m, w') => handler m w'
    end.

Definition emit (e : Event) : M unit :=
  fun w => (Return tt, {| rows := rows w; journal := journal w ++ [e] |}).

Definition lift {A : Type} (o : Outcome A) : M A := fun w => (o, w).

Declare Scope m_scope.
Delimit Scope m_scope with m.
Notation "x <- c ;; k" := (bind c (fun x => k))
  (at level 61, c at next level, right associativity) : m_scope.
Notation "c ;; k" := (bind c (fun _ => k))
  (at level 61, right associativity) : m_scope.

Definition matches (q : Where) (row : Workspace.t) : bool :=
  match q with
  | WhereSubdomain s => String.eqb (Workspace.subdomain row) s
  | WhereCustomDomain d =>
      JsString.opt_eqb (Workspace.customDomain row) (Some d)
  end.

Module Repository.
Local Open Scope m_scope.

(** [findOne({ where })] and [findOneBy(where)]: the first matching row. *)
Definition findOne (q : Where) : M (option Workspace.t) :=
  emit (RepositoryFindOne q) ;;
  fun w => (Return (find (matches q) (rows w)), w).

(** Rows are put in order by insertion; a row goes in front of the first
    row that is not more recent than it. *)
Fixpoint insertByCreatedAtDesc (row : Workspace.t) (sorted : list Workspace.t)
  : list Workspace.t :=
  match sorted with
  | [] => [row]
  | r :: rest =>
      if (Workspace.createdAt r <=? Workspace.createdAt row)%Z
      then row :: r :: rest
      else r :: insertByCreatedAtDesc row rest
  end.

Definition orderByCreatedAtDesc (l : list Workspace.t) : list Workspace.t :=
  fold_right insertByCreatedAtDesc [] l.

(** [find({ order: { createdAt: 'DESC' } })] *)
Definition findOrderByCreatedAtDesc : M (list Workspace.t) :=
  emit RepositoryFind ;;
  fun w => (Return (orderByCreatedAtDesc (rows w)), w).

(** The row that [save] writes replaces the stored row of the same
    workspace (the subdomain identifies a workspace); a row of a workspace
    not stored yet is added. *)
Definition upsert (row : Workspace.t) (l : list Workspace.t)
  : list Workspace.t :=
  if existsb (matches (WhereSubdomain (Workspace.subdomain row))) l
  then map (fun r => if matches (WhereSubdomain (Workspace.subdomain row)) r
                     then row else r) l
  else l ++ [row].

Definition save (row : Workspace.t) : M unit :=
  emit (RepositorySave row) ;;
  fun w => (Return tt, {| rows := upsert row (rows w); journal := journal w |}).

End Repository.

(** The rows written by a run, oldest first. *)
Definition writes (j : list Event) : list Workspace.t :=
  flat_map (fun e => match e with RepositorySave r => [r] | _ => [] end) j.

Definition warnings (j : list Event) : list string :=
  flat_map (fun e => match e with LoggerWarn m => [m] | _ => [] end) j.

(** The reads of the repository in a run. *)
Definition reads (j : list Event) : list Event :=
  filter (fun e => match e with
                   | RepositoryFindOne _ | RepositoryFind => true
                   | _ => false
                   end) j.

Definition lookups (j : list Event) : list string :=
  flat_map (fun e => match e with CustomDomainDetailsLookup h => [h] | _ => [] end) j.

(* ================================================================== *)
(** ** [DomainManagerService], the part that uses the repository *)
Section DomainManagerRepository.
Context {api : URLApi}.
Variable env : Environment.

Local Open Scope m_scope.

Definition getDefaultWorkspace : M (option Workspace.t) :=
  if negb (IS_MULTIWORKSPACE_ENABLED env) then
    let defaultWorkspaceSubDomain := DEFAULT_SUBDOMAIN env in
    let fallback : M (option Workspace.t) :=
      workspaces <- Repository.findOrderByCreatedAtDesc ;;
      (if (1 <? List.length workspaces)%nat
       then emit (LoggerWarn
              ("In single-workspace mode, there should be only one workspace. Today there are "
               ++ JsString.of_nat (List.length workspaces) ++ " workspaces"))
       else ret tt) ;;
      ret (nth_error workspaces 0) in
    match defaultWorkspaceSubDomain with
    | Some d =>
        if isDefined defaultWorkspaceSubDomain then
          foundWorkspaceForDefaultSubDomain
            <- Repository.findOne (WhereSubdomain d) ;;
          if isDefined foundWorkspaceForDefaultSubDomain
          then ret foundWorkspaceForDefaultSubDomain
          else fallback
        else fallback
    | None => fallback
    end
  else
    throw "Default workspace not exist when multi-workspace is enabled".

Definition getWorkspaceBySubdomainOrDefaultWorkspace
    (subdomain : option string) : M (option Workspace.t) :=
  match subdomain with
  | Some s => if JsString.truthy s
              then Repository.findOne (WhereSubdomain s)
              else getDefaultWorkspace
  | None => getDefaultWorkspace
  end.

Definition getWorkspaceByOriginOrDefaultWorkspace (origin : string)
  : M (option Workspace.t) :=
  if negb (IS_MULTIWORKSPACE_ENABLED env) then getDefaultWorkspace
  else
    key <- lift (getSubdomainAndCustomDomainFromUrl env origin) ;;
    let subdomain := OriginKey.subdomain key in
    let customDomain := OriginKey.customDomain key in
    if negb (JsString.truthy_opt customDomain)
       && negb (JsString.truthy_opt subdomain)
    then ret None
    else
      let where_ : option Where :=
        if isDefined customDomain
        then option_map WhereCustomDomain customDomain
        else option_map WhereSubdomain subdomain in
      match where_ with
      | Some q => Repository.findOne q
      | None => ret None
      end.

End DomainManagerRepository.

(* ================================================================== *)
(** ** [cacheStorageModuleFactory] *)

(** Modelled from the spec: the enum [CacheStorageType] is declared in a
    file that is not at hand; its two members are the values [memory] and
    [redis] of the configuration key [CACHE_STORAGE_TYPE]. *)
Module CacheStorageType.
Definition Memory : string := "memory".
Definition Redis : string := "redis".
End CacheStorageType.

(** The store imported from [cache-manager-redis-yet]. *)
Inductive CacheStore : Type := redisStore.

Record Socket : Type := { connectionString : string }.

(** [CacheModuleOptions]; a key that the object does not have is [None]. *)
Record CacheModuleOptions : Type := {
  isGlobal : bool;
  ttl : Z;
  store : option CacheStore;
  socket : option Socket
}.

Definition cacheStorageModuleFactory (env : Environment)
  : Outcome CacheModuleOptions :=
  let cacheStorageType := CACHE_STORAGE_TYPE env in
  let cacheStorageTtl := CACHE_STORAGE_TTL env in
  let cacheModuleOptions :=
    {| isGlobal := true; ttl := (cacheStorageTtl * 1000)%Z;
       store := None; socket := None |} in
  if String.eqb cacheStorageType CacheStorageType.Memory then
    Return cacheModuleOptions
  else if String.eqb cacheStorageType CacheStorageType.Redis then
    let connectionString := REDIS_URL env in
    let missing : Outcome CacheModuleOptions :=
      Throw (cacheStorageType ++ " cache storage requires "
             ++ JsString.interpolate connectionString
             ++ " to be defined, check your .env file") in
    match connectionString with
    | Some url =>
        if negb (JsString.truthy url) then missing
        else
          Return {| isGlobal := isGlobal cacheModuleOptions;
                    ttl := ttl cacheModuleOptions;
                    store := Some redisStore;
                    socket := Some {| connectionString := url |} |}
    | None => missing
    end
  else
    Throw ("Invalid cache-storage (" ++ cacheStorageType
           ++ "), check your .env file").

(* ================================================================== *)
(** ** The custom-hostname webhook *)

(** What the handler reads of a request: the header [cf-webhook-auth] and
    [body.data.data.hostname]. *)
Record WebhookRequest : Type := {
  cf_webhook_auth : option string;
  hostname : option string
}.

Inductive WebhookResponse : Type :=
| Status200
| AuthenticationFailure.

Section CloudflareController.
(** The shared secret the deployment is configured with. *)
Variable webhookSecret : string.
(** [CustomDomainService.getCustomDomainDetails]: an external call that
    answers with the validation details, with nothing, or fails. *)
Variable getCustomDomainDetails
  : string -> Outcome (option CustomDomainValidRecords).

Local Open Scope m_scope.

Definition lookupCustomDomainDetails (hostname : string)
  : M (option CustomDomainValidRecords) :=
  emit (CustomDomainDetailsLookup hostname) ;;
  lift (getCustomDomainDetails hostname).

(** Modelled from the spec: the method [customHostnameWebhooks] of
    [CloudflareController] is missing from the sources (its test-suite is
    there).  The seven steps of the algorithm of section 4.2:
    the secret is checked first; a payload without hostname is answered
    at once; the tenant is looked up by [customDomain == hostname]; the
    validation details are fetched; without details the domain is cleared
    if the tenant still holds it; with details the flag is rewritten only
    when it differs from [working]; an error on the way is reported and
    absorbed; every authenticated request is answered with 200. *)
Definition customHostnameWebhooks (req : WebhookRequest) : M WebhookResponse :=
  if negb (JsString.opt_eqb (cf_webhook_auth req) (Some webhookSecret))
  then ret AuthenticationFailure
  else
    match hostname req with
    | None => ret Status200
    | Some hostname =>
        try_catch
          (found <- Repository.findOne (WhereCustomDomain hostname) ;;
           match found with
           | None => ret Status200
           | Some workspace =>
               details <- lookupCustomDomainDetails hostname ;;
               match details with
               | None =>
                   if JsString.opt_eqb (Workspace.customDomain workspace)
                        (Some hostname)
                   then
                     Repository.save
                       {| Workspace.subdomain := Workspace.subdomain workspace;
                          Workspace.customDomain := None;
                          Workspace.isCustomDomainEnabled := false;
                          Workspace.createdAt := Workspace.createdAt workspace |} ;;
                     ret Status200
                   else ret Status200
               | Some customDomainDetails =>
                   let working := isCustomDomainWorking customDomainDetails in
                   if negb (Bool.eqb working
                              (Workspace.isCustomDomainEnabled workspace))
                   then
                     Repository.save
                       {| Workspace.subdomain := Workspace.subdomain workspace;
                          Workspace.customDomain := Some hostname;
                          Workspace.isCustomDomainEnabled := working;
                          Workspace.createdAt := Workspace.createdAt workspace |} ;;
                     ret Status200
                   else ret Status200
               end
           end)
          (fun message => emit (ExceptionCaptured message) ;; ret Status200)
    end.

End CloudflareController.

(** Running a request against rows, with an empty journal. *)
Definition run {A : Type} (c : M A) (table : list Workspace.t)
  : Outcome A * World :=
  c {| rows := table; journal := [] |}.

(* ================================================================== *)
(** ** [getSubdomainAndCustomDomainFromWorkspaceFallbackOnDefaultSubdomain] *)

Module DomainFallback.
(** What the method returns: a fresh object [{ subdomain, customDomain:
    null }], or the workspace it was given, as it is. *)
Inductive t : Type :=
| Fresh (subdomain : option string)
| Given (workspace : Workspace.t).

(** The field [subdomain] of the returned object. *)
Definition subdomain (r : t) : option string :=
  match r with
  | Fresh s => s
  | Given w => Some (Workspace.subdomain w)
  end.

(** The field [customDomain] of the returned object. *)
Definition customDomain (r : t) : option string :=
  match r with
  | Fresh _ => None
  | Given w => Workspace.customDomain w
  end.
End DomainFallback.

(** The argument is [workspace | null | undefined]; [None] is the missing
    workspace. *)
Definition getSubdomainAndCustomDomainFromWorkspaceFallbackOnDefaultSubdomain
    (env : Environment) (workspace : option Workspace.t) : DomainFallback.t :=
  match workspace with
  | None => DomainFallback.Fresh (DEFAULT_SUBDOMAIN env)
  | Some workspace =>
      if negb (Workspace.isCustomDomainEnabled workspace)
      then DomainFallback.Fresh (Some (Workspace.subdomain workspace))
      else DomainFallback.Given workspace
  end.

(* ================================================================== *)
(** ** The enum [FeatureFlagKey] *)
Inductive FeatureFlagKey : Type :=
| IsEventObjectEnabled
| IsAirtableIntegrationEnabled
| IsPostgreSQLIntegrationEnabled
| IsStripeIntegrationEnabled
| IsCopilotEnabled
| IsWorkflowEnabled
| IsAnalyticsV2Enabled
| IsUniqueIndexesEnabled
| IsMicrosoftSyncEnabled
| IsAdvancedFiltersEnabled
| IsCommandMenuV2Enabled
| IsJsonFilterEnabled
| IsLocalizationEnabled
| IsBillingPlansEnabled
| IsNewRelationEnabled.

(** The string each member stands for. *)
Definition FeatureFlagKey_value (k : FeatureFlagKey) : string :=
  match k with
  | IsEventObjectEnabled => "IS_EVENT_OBJECT_ENABLED"
  | IsAirtableIntegrationEnabled => "IS_AIRTABLE_INTEGRATION_ENABLED"
  | IsPostgreSQLIntegrationEnabled => "IS_POSTGRESQL_INTEGRATION_ENABLED"
  | IsStripeIntegrationEnabled => "IS_STRIPE_INTEGRATION_ENABLED"
  | IsCopilotEnabled => "IS_COPILOT_ENABLED"
  | IsWorkflowEnabled => "IS_WORKFLOW_ENABLED"
  | IsAnalyticsV2Enabled => "IS_ANALYTICS_V2_ENABLED"
  | IsUniqueIndexesEnabled => "IS_UNIQUE_INDEXES_ENABLED"
  | IsMicrosoftSyncEnabled => "IS_MICROSOFT_SYNC_ENABLED"
  | IsAdvancedFiltersEnabled => "IS_ADVANCED_FILTERS_ENABLED"
  | IsCommandMenuV2Enabled => "IS_COMMAND_MENU_V2_ENABLED"
  | IsJsonFilterEnabled => "IS_JSON_FILTER_ENABLED"
  | IsLocalizationEnabled => "IS_LOCALIZATION_ENABLED"
  | IsBillingPlansEnabled => "IS_BILLING_PLANS_ENABLED"
  | IsNewRelationEnabled => "IS_NEW_RELATION_ENABLED"
  end.

(* ================================================================== *)
(** ** A stand-in for the platform, to run the service on examples

    As the test-suite replaces collaborators by mocks, the examples below
    replace the platform's URL class by a small one.  It reads only URLs of
    the shape [scheme://host[:port][/path]] (anything else is refused),
    keeps the host as written, and serialises back to the same shape. *)
Module TestPlatform.

Record SimpleURL : Type := {
  protocol : string;          (* with its colon, as in [https:] *)
  host : string;
  port : string;
  pathname : string;
  searchParams : list (string * string)
}.

(** The part of [s] before the first [sep], and the part from it on. *)
Fixpoint break (sep : ascii) (s : string) : string * string :=
  match s with
  | EmptyString => (EmptyString, EmptyString)
  | String c s' =>
      if Ascii.eqb c sep then (EmptyString, s)
      else let (before, after) := break sep s' in (String c before, after)
  end.

Fixpoint contains (c : ascii) (s : string) : bool :=
  match s with
  | EmptyString => false
  | String d s' => Ascii.eqb c d || contains c s'
  end.

Definition parse (s : string) : Outcome SimpleURL :=
  match JsString.indexOf s "://" with
  | None => Throw "Invalid URL"
  | Some i =>
      let scheme := String.substring 0 i s in
      let rest := JsString.slice (i + 3) s in
      let (authority, path) := break "/" rest in
      let (h, colonPort) := break ":" authority in
      if String.eqb scheme "" || String.eqb h ""
         || contains "?" rest || contains "#" rest
      then Throw "Invalid URL"
      else Return {| protocol := scheme ++ ":";
                     host := h;
                     port := JsString.slice 1 colonPort;
                     pathname := if String.eqb path "" then "/" else path;
                     searchParams := [] |}
  end.

Fixpoint query (l : list (string * string)) : string :=
  match l with
  | [] => ""
  | [(k, v)] => k ++ "=" ++ v
  | (k, v) :: rest => k ++ "=" ++ v ++ "&" ++ query rest
  end.

Definition href (u : SimpleURL) : string :=
  protocol u ++ "//" ++ host u
  ++ (if String.eqb (port u) "" then "" else ":" ++ port u)
  ++ pathname u
  ++ (match searchParams u with [] => "" | l => "?" ++ query l end).

Definition with_host (u : SimpleURL) (h : string) : SimpleURL :=
  if String.eqb h "" then u
  else {| protocol := protocol u; host := h; port := port u;
          pathname := pathname u; searchParams := searchParams u |}.

Definition with_port (u : SimpleURL) (p : string) : SimpleURL :=
  {| protocol := protocol u; host := host u; port := p;
     pathname := pathname u; searchParams := searchParams u |}.

Definition with_protocol (u : SimpleURL) (p : string) : SimpleURL :=
  {| protocol := fst (break ":" p) ++ ":"; host := host u; port := port u;
     pathname := pathname u; searchParams := searchParams u |}.

Definition with_pathname (u : SimpleURL) (p : string) : SimpleURL :=
  {| protocol := protocol u; host := host u; port := port u;
     pathname := if JsString.startsWith p "/" then p else "/" ++ p;
     searchParams := searchParams u |}.

(** [URLSearchParams.set]: the first pair with the key takes the value
    and the other pairs with the key go; without such a pair, a new one
    is put at the end. *)
Fixpoint set_first (k v : string) (l : list (string * string))
  : list (string * string) :=
  match l with
  | [] => [(k, v)]
  | (k', v') :: rest =>
      if String.eqb k' k
      then (k, v) :: filter (fun kv => negb (String.eqb (fst kv) k)) rest
      else (k', v') :: set_first k v rest
  end.

Definition with_param (u : SimpleURL) (k v : string) : SimpleURL :=
  {| protocol := protocol u; host := host u; port := port u;
     pathname := pathname u; searchParams := set_first k v (searchParams u) |}.

#[export] Instance simple : URLApi := {|
  URL := SimpleURL;
  URL_new := parse;
  URL_toString := href;
  URL_hostname := host;
  URL_set_hostname := with_host;
  URL_set_port := with_port;
  URL_set_protocol := with_protocol;
  URL_set_pathname := with_pathname;
  URL_searchParams_set := with_param
|}.

(** A deployment on [https://example.com] with [app] as default
    subdomain, as the examples use it. *)
Definition exampleEnv (multiworkspace : bool) : Environment := {|
  FRONT_PORT := None;
  FRONT_DOMAIN := Some "example.com";
  FRONT_PROTOCOL := Some "https";
  SERVER_URL := "http://localhost:3000";
  IS_MULTIWORKSPACE_ENABLED := multiworkspace;
  DEFAULT_SUBDOMAIN := Some "app";
  CACHE_STORAGE_TYPE := "memory";
  CACHE_STORAGE_TTL := 604800;
  REDIS_URL := None
|}.

(** The same deployment with the Redis cache storage. *)
Definition redisEnv (url : option string) : Environment := {|
  FRONT_PORT := None;
  FRONT_DOMAIN := Some "example.com";
  FRONT_PROTOCOL := Some "https";
  SERVER_URL := "http://localhost:3000";
  IS_MULTIWORKSPACE_ENABLED := false;
  DEFAULT_SUBDOMAIN := Some "app";
  CACHE_STORAGE_TYPE := "redis";
  CACHE_STORAGE_TTL := 5;
  REDIS_URL := url
|}.

End TestPlatform.

(** The values that the test-suite of the webhook works with. *)
Module TestSuite.

Definition secret : string := "correct-secret".

Definition request (h : option string) : WebhookRequest :=
  {| cf_webhook_auth := Some secret; hostname := h |}.

Definition tenant (domain : option string) (enabled : bool) : Workspace.t :=
  {| Workspace.subdomain := "acme";
     Workspace.customDomain := domain;
     Workspace.isCustomDomainEnabled := enabled;
     Workspace.createdAt := 0 |}.

(** The validation service answers with one record that succeeded. *)
Definition validated (_ : string) : Outcome (option CustomDomainValidRecords) :=
  Return (Some {| records := [ {| status := "success" |} ] |}).

(** The validation service does not know the hostname. *)
Definition unknown (_ : string) : Outcome (option CustomDomainValidRecords) :=
  Return None.

End TestSuite.

(* ================================================================== *)
(** ** Notions of the specification that the statements below use *)

(** The specification's words: the leading label of a hostname is what
    stands before its first dot. *)
Fixpoint leadingLabel (hostname : string) : string :=
  match hostname with
  | EmptyString => EmptyString
  | String c rest =>
      if Ascii.eqb c "." then EmptyString else String c (leadingLabel rest)
  end.

(** The entries of the search parameters that hold a value, as strings. *)
Definition definedEntries (entries : SearchParams) : list (string * string) :=
  flat_map (fun entry : string * option ParamValue =>
              match snd entry with
              | Some v => [(fst entry, ParamValue_toString v)]
              | None => []
              end) entries.

(** The stored row of the default subdomain, when there is one. *)
Definition defaultSubdomainRow (env : Environment) (table : list Workspace.t)
  : option Workspace.t :=
  match DEFAULT_SUBDOMAIN env with
  | Some d => find (matches (WhereSubdomain d)) table
  | None => None
  end.

(** The row of a workspace after its custom domain was cleared, and after
    its flag was brought in line with the validation. *)
Definition cleared (w : Workspace.t) : Workspace.t :=
  {| Workspace.subdomain := Workspace.subdomain w;
     Workspace.customDomain := None;
     Workspace.isCustomDomainEnabled := false;
     Workspace.createdAt := Workspace.createdAt w |}.

Definition reconciled (w : Workspace.t) (hostname : string) (working : bool)
  : Workspace.t :=
  {| Workspace.subdomain := Workspace.subdomain w;
     Workspace.customDomain := Some hostname;
     Workspace.isCustomDomainEnabled := working;
     Workspace.createdAt := Workspace.createdAt w |}.

(** What [getDefaultWorkspace] logs after its query for all workspaces,
    when [n] are stored. *)
Definition warned (n : nat) : list Event :=
  if (1 <? n)%nat
  then [LoggerWarn
          ("In single-workspace mode, there should be only one workspace. Today there are "
           ++ JsString.of_nat n ++ " workspaces")]
  else [].

(** A configuration with another front port, and with another front
    domain. *)
Definition withFrontPort (env : Environment) (port : option Z) : Environment :=
  {| FRONT_PORT := port;
     FRONT_DOMAIN := FRONT_DOMAIN env;
     FRONT_PROTOCOL := FRONT_PROTOCOL env;
     SERVER_URL := SERVER_URL env;
     IS_MULTIWORKSPACE_ENABLED := IS_MULTIWORKSPACE_ENABLED env;
     DEFAULT_SUBDOMAIN := DEFAULT_SUBDOMAIN env;
     CACHE_STORAGE_TYPE := CACHE_STORAGE_TYPE env;
     CACHE_STORAGE_TTL := CACHE_STORAGE_TTL env;
     REDIS_URL := REDIS_URL env |}.

Definition withFrontDomain (env : Environment) (domain : option string)
  : Environment :=
  {| FRONT_PORT := FRONT_PORT env;
     FRONT_DOMAIN := domain;
     FRONT_PROTOCOL := FRONT_PROTOCOL env;
     SERVER_URL := SERVER_URL env;
     IS_MULTIWORKSPACE_ENABLED := IS_MULTIWORKSPACE_ENABLED env;
     DEFAULT_SUBDOMAIN := DEFAULT_SUBDOMAIN env;
     CACHE_STORAGE_TYPE := CACHE_STORAGE_TYPE env;
     CACHE_STORAGE_TTL := CACHE_STORAGE_TTL env;
     REDIS_URL := REDIS_URL env |}.

(** The platform takes [h] as hostname of [u], and gives the URL back when
    it parses what it has serialised. *)
Definition hostnameSurvives {api : URLApi} (u : URL) (h : string) : Prop :=
  URL_hostname (URL_set_hostname u h) = h
  /\ URL_new (URL_toString (URL_set_hostname u h))
     = Return (URL_set_hostname u h).

(* ================================================================== *)
(** * Properties *)

(** ** Strings *)
Module JsStringFacts.
Import JsString.

Lemma length_append (a b : string) :
  String.length (a ++ b) = String.length a + String.length b.
Proof. induction a as [|c a IH]; simpl; [reflexivity | now rewrite IH]. Qed.

Lemma append_assoc (a b c : string) : (a ++ b) ++ c = a ++ (b ++ c).
Proof. induction a as [|x a IH]; simpl; [reflexivity | now rewrite IH]. Qed.

Lemma append_empty_r (a : string) : a ++ "" = a.
Proof. induction a as [|x a IH]; simpl; [reflexivity | now rewrite IH]. Qed.

Lemma startsWith_app (pat s : string) : startsWith (pat ++ s) pat = true.
Proof.
  induction pat as [|c pat IH]; simpl; [reflexivity|].
  now rewrite Ascii.eqb_refl, IH.
Qed.

Lemma startsWith_inv (pat s : string) :
  startsWith s pat = true -> s = pat ++ slice (String.length pat) s.
Proof.
  revert s; induction pat as [|c pat IH]; intros s H; simpl in *.
  - reflexivity.
  - destruct s as [|d s]; [discriminate|].
    apply andb_true_iff in H as [Hc Hs].
    apply Ascii.eqb_eq in Hc; subst d.
    now rewrite <- (IH s Hs).
Qed.

Lemma slice_app (p s : string) : slice (String.length p) (p ++ s) = s.
Proof. induction p as [|c p IH]; simpl; [reflexivity | exact IH]. Qed.

Lemma slice_length (n : nat) (s : string) :
  String.length (slice n s) = String.length s - n.
Proof.
  revert s; induction n as [|n IH]; intros s; simpl.
  - now rewrite Nat.sub_0_r.
  - destruct s as [|c s]; simpl; [reflexivity | apply IH].
Qed.

(** A string is what was sliced off followed by the slice. *)
Lemma slice_split (n : nat) (s : string) :
  exists p, s = p ++ slice n s /\ String.length p = Nat.min n (String.length s).
Proof.
  revert s; induction n as [|n IH]; intros s; simpl.
  - exists ""; split; reflexivity.
  - destruct s as [|c s]; simpl.
    + exists ""; split; reflexivity.
    + destruct (IH s) as [p [Hp Hl]].
      exists (String c p); simpl; split; [now rewrite <- Hp | now rewrite Hl].
Qed.

Lemma endsWith_app (p suf : string) : endsWith (p ++ suf) suf = true.
Proof.
  unfold endsWith. rewrite length_append.
  apply andb_true_iff; split.
  - apply Nat.leb_le; lia.
  - replace (String.length p + String.length suf - String.length suf)
      with (String.length p) by lia.
    rewrite slice_app. apply String.eqb_refl.
Qed.

Lemma endsWith_inv (s suf : string) :
  endsWith s suf = true -> exists p, s = p ++ suf.
Proof.
  unfold endsWith; intros H.
  apply andb_true_iff in H as [_ H]. apply String.eqb_eq in H.
  destruct (slice_split (String.length s - String.length suf) s) as [p [Hp _]].
  exists p. now rewrite H in Hp.
Qed.

(** An occurrence found at [length p] of [p ++ rest] lies at the start of
    [rest] and is what [replace] takes out. *)
Lemma replace_at_index (p rest pat rep : string) :
  indexOf (p ++ rest) pat = Some (String.length p) ->
  replace (p ++ rest) pat rep = p ++ rep ++ slice (String.length pat) rest.
Proof.
  induction p as [|c p IH]; simpl; intros H.
  - destruct rest as [|d rest]; simpl in *.
    + destruct (startsWith "" pat); [reflexivity | discriminate].
    + destruct (startsWith (String d rest) pat); [reflexivity|].
      destruct (indexOf rest pat); discriminate.
  - destruct (startsWith (String c (p ++ rest)) pat); [discriminate|].
    destruct (indexOf (p ++ rest) pat) as [i|] eqn:E; [|discriminate].
    simpl in H. injection H as ->. now rewrite IH.
Qed.

Lemma replace_suffix (p suf : string) :
  indexOf (p ++ suf) suf = Some (String.length p) ->
  replace (p ++ suf) suf "" = p.
Proof.
  intros H. rewrite (replace_at_index p suf suf "" H). simpl.
  replace (slice (String.length suf) suf) with "".
  - apply append_empty_r.
  - pose proof (slice_app suf "") as E. now rewrite append_empty_r in E.
Qed.

End JsStringFacts.

(* ================================================================== *)
(** ** From an origin to the key of a workspace *)
Section OriginKeyFacts.
Context {api : URLApi}.
Variable env : Environment.

Import JsString JsStringFacts.

(** The function throws exactly when one of the two URLs cannot be built;
    otherwise its result is read off the two hostnames. *)
Lemma getSubdomainAndCustomDomainFromUrl_eq (url : string) (origin front : URL) :
  URL_new url = Return origin ->
  getFrontUrl env = Return front ->
  getSubdomainAndCustomDomainFromUrl env url =
  let originHostname := URL_hostname origin in
  let pattern := "." ++ URL_hostname front in
  let isFrontdomain := endsWith originHostname pattern in
  let subdomain := replace originHostname pattern "" in
  Return {| OriginKey.subdomain :=
              if isFrontdomain && negb (isDefaultSubdomain env subdomain)
              then Some subdomain else None;
            OriginKey.customDomain :=
              if isFrontdomain then None else Some originHostname |}.
Proof.
  intros Ho Hf. unfold getSubdomainAndCustomDomainFromUrl.
  rewrite Ho; simpl. rewrite Hf; reflexivity.
Qed.

Lemma getSubdomainAndCustomDomainFromUrl_inv (url : string) (key : OriginKey.t) :
  getSubdomainAndCustomDomainFromUrl env url = Return key ->
  exists origin front,
    URL_new url = Return origin /\ getFrontUrl env = Return front.
Proof.
  unfold getSubdomainAndCustomDomainFromUrl.
  destruct (URL_new url) as [origin|m]; simpl; [|discriminate].
  destruct (getFrontUrl env) as [front|m]; simpl; [|discriminate].
  intros _. now exists origin, front.
Qed.

(** C1, as amended.  Let [h] be the hostname of the origin and [fd] the
    hostname of the front URL.  If [h] is [p ++ "." ++ fd] and this is
    where ["." ++ fd] first occurs in [h], the function returns [p] (all of
    it, however many labels it has) as subdomain, or no subdomain when [p]
    is the default subdomain, and a null custom domain.  If [h] does not
    end with ["." ++ fd], it returns [h] as custom domain and no
    subdomain. *)
Theorem origin_key_of_hostname (url : string) (origin front : URL) :
  URL_new url = Return origin ->
  getFrontUrl env = Return front ->
  (forall p : string,
      URL_hostname origin = p ++ "." ++ URL_hostname front ->
      indexOf (URL_hostname origin) ("." ++ URL_hostname front)
        = Some (String.length p) ->
      getSubdomainAndCustomDomainFromUrl env url =
      Return {| OriginKey.subdomain :=
                  if isDefaultSubdomain env p then None else Some p;
                OriginKey.customDomain := None |})
  /\ (endsWith (URL_hostname origin) ("." ++ URL_hostname front) = false ->
      getSubdomainAndCustomDomainFromUrl env url =
      Return {| OriginKey.subdomain := None;
                OriginKey.customDomain := Some (URL_hostname origin) |}).
Proof.
  intros Ho Hf.
  rewrite (getSubdomainAndCustomDomainFromUrl_eq url origin front Ho Hf).
  cbv zeta. split.
  - intros p Hp Hi.
    assert (Hr : replace (URL_hostname origin) ("." ++ URL_hostname front) "" = p).
    { rewrite Hp in Hi |- *. now apply replace_suffix. }
    rewrite Hr.
    replace (endsWith (URL_hostname origin) ("." ++ URL_hostname front))
      with true by (rewrite Hp; symmetry; apply endsWith_app).
    simpl. now destruct (isDefaultSubdomain env p).
  - intros He. rewrite He. reflexivity.
Qed.

(** C5.  Whatever the URL, a result never carries a subdomain together
    with a custom domain that is not null: one of the two is missing. *)
Theorem origin_key_exclusive (url : string) (key : OriginKey.t) :
  getSubdomainAndCustomDomainFromUrl env url = Return key ->
  OriginKey.subdomain key = None \/ OriginKey.customDomain key = None.
Proof.
  intros H.
  destruct (getSubdomainAndCustomDomainFromUrl_inv url key H)
    as (origin & front & Ho & Hf).
  rewrite (getSubdomainAndCustomDomainFromUrl_eq url origin front Ho Hf) in H.
  cbv zeta in H. injection H as Hk. subst key.
  cbn [OriginKey.subdomain OriginKey.customDomain].
  destruct (endsWith _ _); [right | left]; reflexivity.
Qed.

End OriginKeyFacts.


(** A prefix that is one label puts the first occurrence of the pattern
    right behind it, so that for such hostnames the subdomain is the
    leading label. *)
Lemma indexOf_after_leading_label (p fd : string) :
  leadingLabel (p ++ "." ++ fd) = p ->
  JsString.indexOf (p ++ "." ++ fd) ("." ++ fd) = Some (String.length p).
Proof.
  induction p as [|c p IH]; intros H.
  - change ("" ++ "." ++ fd) with ("." ++ fd).
    pose proof (JsStringFacts.startsWith_app ("." ++ fd) "") as E.
    rewrite JsStringFacts.append_empty_r in E.
    change (JsString.indexOf ("." ++ fd) ("." ++ fd))
      with (if JsString.startsWith ("." ++ fd) ("." ++ fd) then Some 0
            else option_map S (JsString.indexOf fd ("." ++ fd))).
    now rewrite E.
  - change (String c p ++ "." ++ fd) with (String c (p ++ "." ++ fd)) in *.
    cbn [leadingLabel] in H.
    destruct (Ascii.eqb c ".") eqn:Ec; [discriminate|].
    injection H as H.
    change (JsString.indexOf (String c (p ++ "." ++ fd)) ("." ++ fd))
      with (if Ascii.eqb "." c && JsString.startsWith (p ++ "." ++ fd) fd
            then Some 0
            else option_map S (JsString.indexOf (p ++ "." ++ fd) ("." ++ fd))).
    rewrite Ascii.eqb_sym, Ec. cbn [andb].
    now rewrite (IH H).
Qed.

(** [replace] takes out the first occurrence of the front domain, which
    need not be the one the hostname ends with. *)
Example origin_key_first_occurrence :
  getSubdomainAndCustomDomainFromUrl (api := TestPlatform.simple)
    (TestPlatform.exampleEnv true) "https://x.example.com.y.example.com"
  = Return {| OriginKey.subdomain := Some "x.y.example.com";
              OriginKey.customDomain := None |}.
Proof. reflexivity. Qed.

(** The default subdomain is no subdomain. *)
Example origin_key_default_subdomain :
  getSubdomainAndCustomDomainFromUrl (api := TestPlatform.simple)
    (TestPlatform.exampleEnv true) "https://app.example.com/welcome"
  = Return {| OriginKey.subdomain := None; OriginKey.customDomain := None |}.
Proof. reflexivity. Qed.

(** On [https://acme.example.com/welcome] the subdomain is [acme]; on
    [https://crm.acme.org] the custom domain is [crm.acme.org]. *)
Lemma origin_key_of_hostname_witness :
  getSubdomainAndCustomDomainFromUrl (api := TestPlatform.simple)
      (TestPlatform.exampleEnv true)
    "https://acme.example.com/welcome"
  = Return {| OriginKey.subdomain := Some "acme";
              OriginKey.customDomain := None |}
  /\ getSubdomainAndCustomDomainFromUrl (api := TestPlatform.simple)
      (TestPlatform.exampleEnv true)
       "https://crm.acme.org"
     = Return {| OriginKey.subdomain := None;
                 OriginKey.customDomain := Some "crm.acme.org" |}.
Proof.
  split.
  - exact (proj1 (origin_key_of_hostname (api := TestPlatform.simple)
                    (TestPlatform.exampleEnv true)
                    "https://acme.example.com/welcome" _ _ eq_refl eq_refl)
                 "acme" eq_refl eq_refl).
  - exact (proj2 (origin_key_of_hostname (api := TestPlatform.simple)
                    (TestPlatform.exampleEnv true)
                    "https://crm.acme.org" _ _ eq_refl eq_refl)
                 eq_refl).
Defined.

(** C1 as the specification words it: the subdomain would be the leading
    label of the hostname.  On [https://a.b.example.com] the function
    returns [a.b], and the leading label is [a]. *)
Lemma leading_label_claim_fails :
  ~ (forall (api : URLApi) (env : Environment) (url : string)
            (origin front : URL),
        URL_new url = Return origin ->
        getFrontUrl env = Return front ->
        JsString.endsWith (URL_hostname origin) ("." ++ URL_hostname front)
          = true ->
        getSubdomainAndCustomDomainFromUrl env url =
        Return {| OriginKey.subdomain :=
                    if isDefaultSubdomain env
                         (leadingLabel (URL_hostname origin))
                    then None
                    else Some (leadingLabel (URL_hostname origin));
                  OriginKey.customDomain := None |}).
Proof.
  intros claim.
  specialize (claim TestPlatform.simple (TestPlatform.exampleEnv true)
                "https://a.b.example.com" _ _ eq_refl eq_refl eq_refl).
  vm_compute in claim. discriminate claim.
Qed.

Lemma origin_key_exclusive_witness :
  OriginKey.subdomain
    {| OriginKey.subdomain := Some "acme"; OriginKey.customDomain := None |}
    = None
  \/ OriginKey.customDomain
       {| OriginKey.subdomain := Some "acme"; OriginKey.customDomain := None |}
     = None.
Proof.
  exact (origin_key_exclusive (api := TestPlatform.simple)
           (TestPlatform.exampleEnv true)
           "https://acme.example.com/welcome" _ eq_refl).
Defined.

(* ================================================================== *)
(** ** URLs of a workspace *)
Section WorkspaceUrlFacts.
Context {api : URLApi}.
Variable env : Environment.

Import JsString.

(** The loop over the entries sets the entries that hold a value, in
    order, and passes over the others. *)
Lemma fold_setSearchParam (entries : SearchParams) (url : URL) :
  fold_left setSearchParam entries url =
  fold_left (fun u kv => URL_searchParams_set u (fst kv) (snd kv))
            (definedEntries entries) url.
Proof.
  revert url; induction entries as [|[key [v|]] entries IH]; intros url.
  - reflexivity.
  - cbn [fold_left definedEntries flat_map snd fst app setSearchParam isDefined].
    apply IH.
  - cbn [fold_left definedEntries flat_map snd fst app setSearchParam isDefined].
    apply IH.
Qed.

Lemma getWorkspaceUrls_eq (workspace : Workspace.t) (front : URL) :
  getFrontUrl env = Return front ->
  getWorkspaceUrls env workspace =
  Return {| WorkspaceUrls.customUrl :=
              match Workspace.customDomain workspace with
              | Some customDomain =>
                  if Workspace.isCustomDomainEnabled workspace
                     && truthy customDomain
                  then Some (URL_toString (URL_set_hostname front customDomain))
                  else None
              | None => None
              end;
            WorkspaceUrls.subdomainUrl :=
              URL_toString
                (URL_set_hostname front
                   (Workspace.subdomain workspace ++ "." ++ URL_hostname front)) |}.
Proof.
  intros Hf.
  unfold getWorkspaceUrls, getCustomWorkspaceUrl, getTwentyWorkspaceUrl.
  rewrite Hf.
  destruct (Workspace.customDomain workspace) as [d|]; [|reflexivity].
  destruct (Workspace.isCustomDomainEnabled workspace && truthy d);
    reflexivity.
Qed.

(** C7.  With [front] the front URL of the deployment, the URL of a
    workspace is built on the front URL with the custom domain as hostname
    when [isCustomDomainEnabled] holds and [customDomain] is a non-empty
    string, and with [subdomain.frontDomain] as hostname in every other
    case, an enabled flag with an empty or null custom domain included.  A
    truthy pathname is applied, every search parameter that holds a value
    is set, in order, and the parameters without value are passed over. *)
Theorem buildWorkspaceURL_target (workspace : Workspace.t)
    (pathname : option string) (searchParams : option SearchParams)
    (front : URL) :
  getFrontUrl env = Return front ->
  buildWorkspaceURL env workspace pathname searchParams =
  let subdomainHostname :=
    Workspace.subdomain workspace ++ "." ++ URL_hostname front in
  let target :=
    match Workspace.customDomain workspace with
    | Some customDomain =>
        if Workspace.isCustomDomainEnabled workspace
           && negb (String.eqb customDomain "")
        then customDomain else subdomainHostname
    | None => subdomainHostname
    end in
  obind (URL_new (URL_toString (URL_set_hostname front target)))
    (fun url =>
       let url := match pathname with
                  | Some p => if String.eqb p "" then url
                              else URL_set_pathname url p
                  | None => url
                  end in
       Return (fold_left
                 (fun u kv => URL_searchParams_set u (fst kv) (snd kv))
                 (match searchParams with
                  | Some entries => definedEntries entries
                  | None => []
                  end) url)).
Proof.
  intros Hf. unfold buildWorkspaceURL.
  rewrite (getWorkspaceUrls_eq workspace front Hf).
  cbn [obind WorkspaceUrls.customUrl WorkspaceUrls.subdomainUrl]. cbv zeta.
  assert (Htarget :
    (match
       match Workspace.customDomain workspace with
       | Some customDomain =>
           if Workspace.isCustomDomainEnabled workspace && truthy customDomain
           then Some (URL_toString (URL_set_hostname front customDomain))
           else None
       | None => None
       end
     with
     | Some customUrl => customUrl
     | None => URL_toString
                 (URL_set_hostname front
                    (Workspace.subdomain workspace ++ "." ++ URL_hostname front))
     end)
    = URL_toString
        (URL_set_hostname front
           match Workspace.customDomain workspace with
           | Some customDomain =>
               if Workspace.isCustomDomainEnabled workspace
                  && negb (String.eqb customDomain "")
               then customDomain
               else Workspace.subdomain workspace ++ "." ++ URL_hostname front
           | None => Workspace.subdomain workspace ++ "." ++ URL_hostname front
           end)).
  { destruct (Workspace.customDomain workspace) as [d|]; [|reflexivity].
    unfold truthy.
    destruct (Workspace.isCustomDomainEnabled workspace
              && negb (String.eqb d "")); reflexivity. }
  rewrite Htarget.
  destruct (URL_new _) as [url|m]; [|reflexivity].
  cbn [obind]. f_equal.
  assert (Hpath :
    (if truthy_opt pathname
     then URL_set_pathname url (interpolate pathname) else url)
    = match pathname with
      | Some p => if String.eqb p "" then url else URL_set_pathname url p
      | None => url
      end).
  { destruct pathname as [p|]; [|reflexivity].
    unfold truthy_opt, truthy, interpolate.
    destruct (String.eqb p ""); reflexivity. }
  rewrite Hpath.
  destruct searchParams as [entries|]; [|reflexivity].
  apply fold_setSearchParam.
Qed.

(** When the front URL cannot be built, neither can the workspace's. *)
Lemma buildWorkspaceURL_throws (workspace : Workspace.t)
    (pathname : option string) (searchParams : option SearchParams)
    (message : string) :
  getFrontUrl env = Throw message ->
  buildWorkspaceURL env workspace pathname searchParams = Throw message.
Proof.
  intros Hf.
  unfold buildWorkspaceURL, getWorkspaceUrls, getCustomWorkspaceUrl,
    getTwentyWorkspaceUrl.
  rewrite Hf.
  destruct (Workspace.customDomain workspace) as [d|]; [|reflexivity].
  destruct (Workspace.isCustomDomainEnabled workspace && truthy d);
    reflexivity.
Qed.

End WorkspaceUrlFacts.

(** A workspace [acme] with the custom domain [crm.acme.org] enabled, and
    the same workspace with the flag set over an empty custom domain. *)
Lemma buildWorkspaceURL_target_witness :
  option_map (URL_toString (URLApi := TestPlatform.simple))
    (match buildWorkspaceURL (api := TestPlatform.simple)
             (TestPlatform.exampleEnv true)
             {| Workspace.subdomain := "acme";
                Workspace.customDomain := Some "crm.acme.org";
                Workspace.isCustomDomainEnabled := true;
                Workspace.createdAt := 0 |}
             (Some "verify")
             (Some [("token", Some (PString "t0")); ("skipped", None);
                    ("n", Some (PNumber 12))])
     with Return u => Some u | Throw _ => None end)
  = Some "https://crm.acme.org/verify?token=t0&n=12"
  /\ option_map (URL_toString (URLApi := TestPlatform.simple))
       (match buildWorkspaceURL (api := TestPlatform.simple)
                (TestPlatform.exampleEnv true)
                {| Workspace.subdomain := "acme";
                   Workspace.customDomain := Some "";
                   Workspace.isCustomDomainEnabled := true;
                   Workspace.createdAt := 0 |}
                None None
        with Return u => Some u | Throw _ => None end)
     = Some "https://acme.example.com/".
Proof.
  split.
  - rewrite (buildWorkspaceURL_target (api := TestPlatform.simple)
               (TestPlatform.exampleEnv true) _ _ _ _ eq_refl).
    reflexivity.
  - rewrite (buildWorkspaceURL_target (api := TestPlatform.simple)
               (TestPlatform.exampleEnv true) _ _ _ _ eq_refl).
    reflexivity.
Defined.

(* ================================================================== *)
(** ** The repository *)
Module RepositoryFacts.
Import Repository.

Lemma In_insertByCreatedAtDesc (x row : Workspace.t) (l : list Workspace.t) :
  In x (insertByCreatedAtDesc row l) <-> x = row \/ In x l.
Proof.
  induction l as [|r l IH]; simpl.
  - intuition congruence.
  - destruct (Workspace.createdAt r <=? Workspace.createdAt row)%Z; simpl.
    + intuition congruence.
    + rewrite IH. intuition congruence.
Qed.

Lemma In_orderByCreatedAtDesc (x : Workspace.t) (l : list Workspace.t) :
  In x (orderByCreatedAtDesc l) <-> In x l.
Proof.
  induction l as [|r l IH]; simpl; [reflexivity|].
  rewrite In_insertByCreatedAtDesc, IH. intuition congruence.
Qed.

Lemma length_insertByCreatedAtDesc (row : Workspace.t) (l : list Workspace.t) :
  List.length (insertByCreatedAtDesc row l) = S (List.length l).
Proof.
  induction l as [|r l IH]; simpl; [reflexivity|].
  destruct (Workspace.createdAt r <=? Workspace.createdAt row)%Z; simpl;
    [reflexivity | now rewrite IH].
Qed.

Lemma length_orderByCreatedAtDesc (l : list Workspace.t) :
  List.length (orderByCreatedAtDesc l) = List.length l.
Proof.
  induction l as [|r l IH]; simpl; [reflexivity|].
  now rewrite length_insertByCreatedAtDesc, IH.
Qed.

(** The first row of the ordered rows is a stored row, and no stored row
    is more recent. *)
Lemma head_orderByCreatedAtDesc (l : list Workspace.t) :
  match orderByCreatedAtDesc l with
  | [] => l = []
  | h :: _ =>
      In h l
      /\ forall x, In x l -> (Workspace.createdAt x <= Workspace.createdAt h)%Z
  end.
Proof.
  induction l as [|r l IH]; simpl; [reflexivity|].
  destruct (orderByCreatedAtDesc l) as [|h t] eqn:E; simpl.
  - subst l. split; [now left|].
    intros x [<-|[]]. lia.
  - destruct IH as [Hin Hmax].
    destruct (Workspace.createdAt h <=? Workspace.createdAt r)%Z eqn:Hle.
    + apply Z.leb_le in Hle. split; [now left|].
      intros x [<-|Hx]; [lia|]. specialize (Hmax x Hx). lia.
    + apply Z.leb_gt in Hle. split; [now right|].
      intros x [<-|Hx]; [lia|]. now apply Hmax.
Qed.

Lemma find_matches_subdomain (d : string) (l : list Workspace.t)
    (w : Workspace.t) :
  find (matches (WhereSubdomain d)) l = Some w ->
  In w l /\ Workspace.subdomain w = d.
Proof.
  intros H. apply find_some in H as [Hin Hm].
  split; [exact Hin|]. now apply String.eqb_eq in Hm.
Qed.

End RepositoryFacts.

(* ================================================================== *)
(** ** The default workspace *)

Lemma writes_app (a b : list Event) : writes (a ++ b) = (writes a ++ writes b)%list.
Proof. apply flat_map_app. Qed.

Lemma warnings_app (a b : list Event) :
  warnings (a ++ b) = (warnings a ++ warnings b)%list.
Proof. apply flat_map_app. Qed.

Lemma lookups_app (a b : list Event) :
  lookups (a ++ b) = (lookups a ++ lookups b)%list.
Proof. apply flat_map_app. Qed.

(** Unfolds the plumbing of a run down to the worlds it goes through. *)
Ltac run_m :=
  unfold Repository.findOrderByCreatedAtDesc, Repository.findOne,
    Repository.save, lift, emit, throw, ret, try_catch, bind;
  cbn [rows journal fst snd].

Section DefaultWorkspaceFacts.
Context {api : URLApi}.
Variable env : Environment.

Import Repository RepositoryFacts.

(** The run of [getDefaultWorkspace] in single-workspace mode, in full. *)
Lemma getDefaultWorkspace_run (w : World) :
  IS_MULTIWORKSPACE_ENABLED env = false ->
  getDefaultWorkspace env w =
  let fallback (before : list Event) :=
    (Return (nth_error (orderByCreatedAtDesc (rows w)) 0),
     {| rows := rows w;
        journal := (journal w ++ before ++ [RepositoryFind]
                    ++ warned (List.length (rows w)))%list |}) in
  match DEFAULT_SUBDOMAIN env with
  | Some d =>
      match find (matches (WhereSubdomain d)) (rows w) with
      | Some row =>
          (Return (Some row),
           {| rows := rows w;
              journal := journal w ++ [RepositoryFindOne (WhereSubdomain d)] |})
      | None => fallback [RepositoryFindOne (WhereSubdomain d)]
      end
  | None => fallback []
  end.
Proof.
  intros Hmode. unfold getDefaultWorkspace. rewrite Hmode. cbn [negb].
  assert (Hfallback : forall before,
    bind findOrderByCreatedAtDesc (fun workspaces =>
      bind (if (1 <? List.length workspaces)%nat
            then emit (LoggerWarn
              ("In single-workspace mode, there should be only one workspace. Today there are "
               ++ JsString.of_nat (List.length workspaces) ++ " workspaces"))
            else ret tt)
           (fun _ => ret (nth_error workspaces 0)))
      {| rows := rows w; journal := journal w ++ before |}
    = (Return (nth_error (orderByCreatedAtDesc (rows w)) 0),
       {| rows := rows w;
          journal := (journal w ++ before ++ [RepositoryFind]
                      ++ warned (List.length (rows w)))%list |})).
  { intros before.
    unfold warned. run_m.
    rewrite length_orderByCreatedAtDesc.
    destruct (1 <? List.length (rows w))%nat; cbn [rows journal];
      now rewrite <- !app_assoc. }
  destruct (DEFAULT_SUBDOMAIN env) as [d|]; cbn [isDefined].
  - unfold bind at 1. unfold findOne. run_m.
    destruct (find (matches (WhereSubdomain d)) (rows w)) as [row|];
      cbn [isDefined].
    + reflexivity.
    + apply Hfallback.
  - cbv zeta. rewrite <- (Hfallback []). rewrite app_nil_r.
    now destruct w.
Qed.

(** C8, as amended.  With multi-workspace mode off, resolution by origin
    never throws and never writes.  It returns the stored workspace of the
    default subdomain when there is one, and then logs no warning.
    Otherwise it returns nothing when no workspace is stored, and else a
    stored workspace than which none is more recent; on this path a warning
    is logged exactly when more than one workspace is stored. *)
Theorem single_workspace_resolution (origin : string)
    (table : list Workspace.t) :
  IS_MULTIWORKSPACE_ENABLED env = false ->
  let outcome := run (getWorkspaceByOriginOrDefaultWorkspace env origin) table in
  rows (snd outcome) = table
  /\ writes (journal (snd outcome)) = []
  /\ (forall w, defaultSubdomainRow env table = Some w ->
        fst outcome = Return (Some w)
        /\ In w table
        /\ Some (Workspace.subdomain w) = DEFAULT_SUBDOMAIN env
        /\ warnings (journal (snd outcome)) = [])
  /\ (defaultSubdomainRow env table = None ->
        (table = [] -> fst outcome = Return None)
        /\ (table <> [] ->
            exists w, fst outcome = Return (Some w)
                      /\ In w table
                      /\ forall x, In x table ->
                           (Workspace.createdAt x <= Workspace.createdAt w)%Z)
        /\ (warnings (journal (snd outcome)) <> []
            <-> 1 < List.length table)).
Proof.
  intros Hmode.
  assert (Hfallback : forall before,
    warnings before = [] -> writes before = [] ->
    let outcome :=
      (Return (nth_error (orderByCreatedAtDesc table) 0),
       {| rows := table;
          journal := ([] ++ before ++ [RepositoryFind]
                      ++ warned (List.length table))%list |}) in
    rows (snd outcome) = table
    /\ writes (journal (snd outcome)) = []
    /\ (table = [] -> fst outcome = Return None)
    /\ (table <> [] ->
        exists w, fst outcome = Return (Some w)
                  /\ In w table
                  /\ forall x, In x table ->
                       (Workspace.createdAt x <= Workspace.createdAt w)%Z)
    /\ (warnings (journal (snd outcome)) <> [] <-> 1 < List.length table)).
  { intros before Hw Hs outcome. subst outcome. cbn [fst snd rows journal app].
    rewrite !writes_app, !warnings_app, Hw, Hs. cbn [app].
    pose proof (head_orderByCreatedAtDesc table) as Hhead.
    split; [reflexivity|]. split.
    { unfold warned. now destruct (1 <? List.length table)%nat. }
    split; [now intros -> |]. split.
    - intros Hne. destruct (orderByCreatedAtDesc table) as [|h t];
        [contradiction|].
      exists h. destruct Hhead as [Hin Hmax]. now repeat split.
    - unfold warned.
      destruct (1 <? List.length table)%nat eqn:Hmany; cbn.
      + apply Nat.ltb_lt in Hmany. split; [now intros _ | discriminate].
      + apply Nat.ltb_ge in Hmany. split; [now intros [] | lia]. }
  unfold run, getWorkspaceByOriginOrDefaultWorkspace. rewrite Hmode. cbn [negb].
  rewrite (getDefaultWorkspace_run _ Hmode). cbv zeta. cbn [rows journal].
  unfold defaultSubdomainRow.
  destruct (DEFAULT_SUBDOMAIN env) as [d|].
  - destruct (find (matches (WhereSubdomain d)) table) as [w|] eqn:Hfind.
    + destruct (find_matches_subdomain d table w Hfind) as [Hin Hsub].
      cbn [fst snd rows journal app]. subst d.
      split; [reflexivity|]. split; [reflexivity|]. split.
      * intros w' Hw'. injection Hw' as <-. now repeat split.
      * discriminate.
    + destruct (Hfallback [RepositoryFindOne (WhereSubdomain d)]
                  eq_refl eq_refl) as (H1 & H2 & H3).
      split; [exact H1|]. split; [exact H2|]. split.
      * discriminate.
      * intros _. exact H3.
  - destruct (Hfallback [] eq_refl eq_refl) as (H1 & H2 & H3).
    split; [exact H1|]. split; [exact H2|]. split.
    + discriminate.
    + intros _. exact H3.
Qed.

End DefaultWorkspaceFacts.

(** Two stored workspaces, the older one on the default subdomain [app]:
    it is the one returned.  Without a default subdomain configured, the
    more recent one is returned. *)
Lemma single_workspace_resolution_witness :
  let table :=
    [ {| Workspace.subdomain := "first"; Workspace.customDomain := None;
         Workspace.isCustomDomainEnabled := false;
         Workspace.createdAt := 10 |};
      {| Workspace.subdomain := "app"; Workspace.customDomain := None;
         Workspace.isCustomDomainEnabled := false;
         Workspace.createdAt := 5 |} ] in
  let noDefault :=
    {| FRONT_PORT := None; FRONT_DOMAIN := None; FRONT_PROTOCOL := None;
       SERVER_URL := "http://localhost:3000";
       IS_MULTIWORKSPACE_ENABLED := false; DEFAULT_SUBDOMAIN := None;
       CACHE_STORAGE_TYPE := "memory"; CACHE_STORAGE_TTL := 5;
       REDIS_URL := None |} in
  fst (run (getWorkspaceByOriginOrDefaultWorkspace (api := TestPlatform.simple)
              (TestPlatform.exampleEnv false) "https://crm.acme.org") table)
  = Return (nth_error table 1)
  /\ exists w,
      fst (run (getWorkspaceByOriginOrDefaultWorkspace
                  (api := TestPlatform.simple) noDefault "https://crm.acme.org")
               table)
      = Return (Some w)
      /\ In w table
      /\ forall x, In x table ->
           (Workspace.createdAt x <= Workspace.createdAt w)%Z.
Proof.
  intros table noDefault. split.
  - destruct (single_workspace_resolution (api := TestPlatform.simple)
                (TestPlatform.exampleEnv false) "https://crm.acme.org" table
                eq_refl) as (_ & _ & Hdefault & _).
    exact (proj1 (Hdefault _ eq_refl)).
  - destruct (single_workspace_resolution (api := TestPlatform.simple)
                noDefault "https://crm.acme.org" table
                eq_refl) as (_ & _ & _ & Hfallback).
    destruct (Hfallback eq_refl) as (_ & Hrecent & _).
    apply Hrecent. discriminate.
Defined.

(** C8 as the specification words it.  With no workspace stored, the
    resolution returns nothing; and with two workspaces stored, one of them
    on the default subdomain, no warning is logged. *)
Lemma default_workspace_claim_fails :
  ~ (forall (api : URLApi) (env : Environment) (origin : string)
            (table : list Workspace.t),
        IS_MULTIWORKSPACE_ENABLED env = false ->
        exists w,
          fst (run (getWorkspaceByOriginOrDefaultWorkspace env origin) table)
          = Return (Some w))
  /\ ~ (forall (api : URLApi) (env : Environment) (origin : string)
               (table : list Workspace.t),
           IS_MULTIWORKSPACE_ENABLED env = false ->
           1 < List.length table ->
           warnings
             (journal
                (snd (run (getWorkspaceByOriginOrDefaultWorkspace env origin)
                          table))) <> []).
Proof.
  split.
  - intros claim.
    destruct (claim TestPlatform.simple (TestPlatform.exampleEnv false)
                "https://crm.acme.org" [] eq_refl) as [w Hw].
    vm_compute in Hw. discriminate Hw.
  - intros claim.
    apply (claim TestPlatform.simple (TestPlatform.exampleEnv false)
             "https://crm.acme.org"
             [ {| Workspace.subdomain := "first"; Workspace.customDomain := None;
                  Workspace.isCustomDomainEnabled := false;
                  Workspace.createdAt := 10 |};
               {| Workspace.subdomain := "app"; Workspace.customDomain := None;
                  Workspace.isCustomDomainEnabled := false;
                  Workspace.createdAt := 5 |} ]
             eq_refl).
    + simpl. lia.
    + reflexivity.
Qed.

(* ================================================================== *)
(** ** The cache storage *)

(** C9, as amended.  The factory throws exactly when the storage type is
    Redis while [REDIS_URL] is absent or the empty string, or when the type
    is neither Memory nor Redis.  For Memory it returns the options without
    store; for Redis with a non-empty connection string it returns the
    options with the redis store and that connection string. *)
Theorem cacheStorageModuleFactory_outcome (env : Environment) :
  ((exists message, cacheStorageModuleFactory env = Throw message)
   <-> (CACHE_STORAGE_TYPE env = CacheStorageType.Redis
        /\ (REDIS_URL env = None \/ REDIS_URL env = Some ""))
       \/ (CACHE_STORAGE_TYPE env <> CacheStorageType.Memory
           /\ CACHE_STORAGE_TYPE env <> CacheStorageType.Redis))
  /\ (CACHE_STORAGE_TYPE env = CacheStorageType.Memory ->
      cacheStorageModuleFactory env =
      Return {| isGlobal := true; ttl := (CACHE_STORAGE_TTL env * 1000)%Z;
                store := None; socket := None |})
  /\ (forall url : string,
        CACHE_STORAGE_TYPE env = CacheStorageType.Redis ->
        REDIS_URL env = Some url ->
        url <> "" ->
        cacheStorageModuleFactory env =
        Return {| isGlobal := true; ttl := (CACHE_STORAGE_TTL env * 1000)%Z;
                  store := Some redisStore;
                  socket := Some {| connectionString := url |} |}).
Proof.
  unfold cacheStorageModuleFactory. cbv zeta.
  destruct (String.eqb_spec (CACHE_STORAGE_TYPE env) CacheStorageType.Memory)
    as [Hmem|Hmem].
  - split; [|split].
    + split.
      * intros [m Hm]. discriminate Hm.
      * intros [[Hredis _]|[Hne _]]; [|contradiction].
        rewrite Hmem in Hredis. discriminate Hredis.
    + reflexivity.
    + intros url Hredis. rewrite Hmem in Hredis. discriminate Hredis.
  - destruct (String.eqb_spec (CACHE_STORAGE_TYPE env) CacheStorageType.Redis)
      as [Hredis|Hredis].
    + cbn [isGlobal ttl].
      destruct (REDIS_URL env) as [url|] eqn:Hurl.
      * unfold JsString.truthy.
        destruct (String.eqb_spec url "") as [Hempty|Hempty]; cbn [negb].
        -- subst url. split; [|split].
           ++ split; [auto | intros _; eexists; reflexivity].
           ++ contradiction.
           ++ intros url _ Hsome Hne. injection Hsome as <-. contradiction.
        -- split; [|split].
           ++ split.
              ** intros [m Hm]. discriminate Hm.
              ** intros [[_ [Hnone|Hsome]]|[_ Hne]];
                   [discriminate Hnone | | contradiction].
                 injection Hsome as ->. contradiction.
           ++ contradiction.
           ++ intros url' _ Hsome _. now injection Hsome as <-.
      * split; [|split].
        -- split; [auto | intros _; eexists; reflexivity].
        -- contradiction.
        -- discriminate.
    + split; [|split].
      * split; [auto | intros _; eexists; reflexivity].
      * contradiction.
      * contradiction.
Qed.

(** The default deployment uses the memory storage; one on
    [redis://cache:6379] uses the redis store. *)
Lemma cacheStorageModuleFactory_outcome_witness :
  cacheStorageModuleFactory (TestPlatform.exampleEnv false)
  = Return {| isGlobal := true; ttl := 604800000;
              store := None; socket := None |}
  /\ cacheStorageModuleFactory
       (TestPlatform.redisEnv (Some "redis://cache:6379"))
     = Return {| isGlobal := true; ttl := 5000;
                 store := Some redisStore;
                 socket := Some {| connectionString := "redis://cache:6379" |} |}.
Proof.
  split.
  - exact (proj1 (proj2 (cacheStorageModuleFactory_outcome
                           (TestPlatform.exampleEnv false))) eq_refl).
  - apply (proj2 (proj2 (cacheStorageModuleFactory_outcome
                            (TestPlatform.redisEnv (Some "redis://cache:6379"))))
             "redis://cache:6379" eq_refl eq_refl).
    discriminate.
Defined.

(** C9 as the specification words it, with "absent" for a missing value.
    With the Redis type and [REDIS_URL] set to the empty string the factory
    throws, though a value is present. *)
Lemma redis_url_claim_fails :
  ~ (forall env : Environment,
        (exists message, cacheStorageModuleFactory env = Throw message)
        <-> (CACHE_STORAGE_TYPE env = CacheStorageType.Redis
             /\ REDIS_URL env = None)
            \/ (CACHE_STORAGE_TYPE env <> CacheStorageType.Memory
                /\ CACHE_STORAGE_TYPE env <> CacheStorageType.Redis)).
Proof.
  intros claim.
  destruct (claim (TestPlatform.redisEnv (Some ""))) as [Hthrows _].
  destruct Hthrows as [[_ Hnone]|[_ Hne]].
  - eexists. reflexivity.
  - discriminate Hnone.
  - now apply Hne.
Qed.

(* ================================================================== *)
(** ** Validation of a custom domain *)

(** C10.  Validation details without any record count as working: the
    check over all records has nothing to refute it. *)
Theorem isCustomDomainWorking_no_records (details : CustomDomainValidRecords) :
  records details = [] -> isCustomDomainWorking details = true.
Proof.
  intros Hrecords. unfold isCustomDomainWorking. now rewrite Hrecords.
Qed.

Lemma isCustomDomainWorking_no_records_witness :
  isCustomDomainWorking {| records := [] |} = true.
Proof.
  exact (isCustomDomainWorking_no_records {| records := [] |} eq_refl).
Defined.

(** A domain works exactly when each of its records has succeeded. *)
Lemma isCustomDomainWorking_iff (details : CustomDomainValidRecords) :
  isCustomDomainWorking details = true
  <-> forall r, In r (records details) -> status r = "success".
Proof.
  unfold isCustomDomainWorking. rewrite forallb_forall.
  split; intros H r Hr; specialize (H r Hr); now apply String.eqb_eq.
Qed.

(* ================================================================== *)
(** ** The custom-hostname webhook *)

Lemma opt_eqb_eq (a b : option string) : JsString.opt_eqb a b = true <-> a = b.
Proof.
  destruct a as [x|], b as [y|]; simpl; try (split; congruence).
  rewrite String.eqb_eq. split; congruence.
Qed.

Lemma find_none_of_all_false {A : Type} (p : A -> bool) (l : list A) :
  (forall x, In x l -> p x = false) -> find p l = None.
Proof.
  induction l as [|a l IH]; intros H; simpl; [reflexivity|].
  rewrite (H a (or_introl eq_refl)). apply IH.
  intros x Hx. apply H. now right.
Qed.

(** Once the row of the one workspace that holds a hostname is cleared,
    no stored row holds the hostname any more. *)
Lemma find_customDomain_after_clear (h : string) (table : list Workspace.t)
    (w : Workspace.t) :
  find (matches (WhereCustomDomain h)) table = Some w ->
  (forall r, In r table -> Workspace.customDomain r = Some h ->
             Workspace.subdomain r = Workspace.subdomain w) ->
  find (matches (WhereCustomDomain h)) (Repository.upsert (cleared w) table)
  = None.
Proof.
  intros Hfind Honly.
  apply find_some in Hfind as [Hin _].
  unfold Repository.upsert.
  replace (existsb (matches (WhereSubdomain (Workspace.subdomain (cleared w))))
                   table) with true.
  - apply find_none_of_all_false. intros r Hr.
    apply in_map_iff in Hr as (r0 & <- & Hr0).
    destruct (matches (WhereSubdomain (Workspace.subdomain (cleared w))) r0)
      eqn:Hsame; [reflexivity|].
    destruct (matches (WhereCustomDomain h) r0) eqn:Hclaims; [|reflexivity].
    apply opt_eqb_eq in Hclaims.
    cbn in Hsame. rewrite (Honly r0 Hr0 Hclaims), String.eqb_refl in Hsame.
    discriminate Hsame.
  - symmetry. apply existsb_exists. exists w. split; [exact Hin|].
    cbn. apply String.eqb_refl.
Qed.

Section WebhookFacts.
Variable webhookSecret : string.
Variable getCustomDomainDetails
  : string -> Outcome (option CustomDomainValidRecords).

(** C4.  A request whose [cf-webhook-auth] header is not the configured
    secret is answered with the authentication failure, and nothing else
    happens: no read of the repository, no write, no validation lookup;
    the stored rows stay as they are. *)
Theorem webhook_wrong_secret (req : WebhookRequest)
    (table : list Workspace.t) :
  cf_webhook_auth req <> Some webhookSecret ->
  let outcome := run (customHostnameWebhooks webhookSecret
                        getCustomDomainDetails req) table in
  fst outcome = Return AuthenticationFailure
  /\ reads (journal (snd outcome)) = []
  /\ writes (journal (snd outcome)) = []
  /\ lookups (journal (snd outcome)) = []
  /\ rows (snd outcome) = table.
Proof.
  intros Hauth. unfold run, customHostnameWebhooks.
  destruct (JsString.opt_eqb (cf_webhook_auth req) (Some webhookSecret))
    eqn:E.
  - apply opt_eqb_eq in E. contradiction.
  - cbn. now repeat split.
Qed.

(** C6.  An authenticated request without hostname is answered with 200
    and writes nothing: the stored rows stay as they are. *)
Theorem webhook_without_hostname (req : WebhookRequest)
    (table : list Workspace.t) :
  cf_webhook_auth req = Some webhookSecret ->
  hostname req = None ->
  let outcome := run (customHostnameWebhooks webhookSecret
                        getCustomDomainDetails req) table in
  fst outcome = Return Status200
  /\ writes (journal (snd outcome)) = []
  /\ rows (snd outcome) = table.
Proof.
  intros Hauth Hhost. unfold run, customHostnameWebhooks.
  apply opt_eqb_eq in Hauth. rewrite Hauth, Hhost.
  cbn. now repeat split.
Qed.

(** C2.  An authenticated request for the hostname of a stored tenant,
    with validation details at hand, writes exactly when [working] (all
    records succeeded) differs from the stored flag; the row written is the
    tenant's with [customDomain] the hostname and [isCustomDomainEnabled]
    equal to [working].  With [working] equal to the stored flag nothing is
    written.  The answer is 200 either way. *)
Theorem webhook_with_details (req : WebhookRequest) (h : string)
    (table : list Workspace.t) (tenant : Workspace.t)
    (details : CustomDomainValidRecords) :
  cf_webhook_auth req = Some webhookSecret ->
  hostname req = Some h ->
  find (matches (WhereCustomDomain h)) table = Some tenant ->
  getCustomDomainDetails h = Return (Some details) ->
  let working := isCustomDomainWorking details in
  let outcome := run (customHostnameWebhooks webhookSecret
                        getCustomDomainDetails req) table in
  fst outcome = Return Status200
  /\ (writes (journal (snd outcome)) <> []
      <-> working <> Workspace.isCustomDomainEnabled tenant)
  /\ (working <> Workspace.isCustomDomainEnabled tenant ->
      writes (journal (snd outcome)) = [reconciled tenant h working]
      /\ rows (snd outcome) = Repository.upsert (reconciled tenant h working) table)
  /\ (working = Workspace.isCustomDomainEnabled tenant ->
      writes (journal (snd outcome)) = [] /\ rows (snd outcome) = table).
Proof.
  intros Hauth Hhost Hfind Hdetails working outcome. subst outcome.
  unfold run, customHostnameWebhooks, lookupCustomDomainDetails.
  apply opt_eqb_eq in Hauth. rewrite Hauth, Hhost. cbn [negb].
  run_m. rewrite Hfind. cbn [rows journal]. rewrite Hdetails.
  fold working. fold (reconciled tenant h working).
  destruct (Bool.eqb working (Workspace.isCustomDomainEnabled tenant)) eqn:E;
    cbn [negb fst snd rows journal app writes flat_map].
  - apply Bool.eqb_prop in E.
    split; [reflexivity|]. split; [|split].
    + split; [intros Hw; now contradiction Hw | intros Hne; contradiction].
    + intros Hne. contradiction.
    + intros _. now split.
  - apply Bool.eqb_false_iff in E.
    split; [reflexivity|]. split; [|split].
    + split; [intros _; exact E | intros _; discriminate].
    + intros _. now split.
    + intros Heq. contradiction.
Qed.

(** C3.  An authenticated request for the hostname of a stored tenant, for
    which the validation lookup returns nothing, writes the tenant's row
    with [customDomain] null and [isCustomDomainEnabled] false, and is
    answered with 200.  When no other stored workspace holds the hostname, a
    second delivery of the request, whatever the lookup would answer, writes
    nothing and leaves the rows as they are. *)
Theorem webhook_without_details (req : WebhookRequest) (h : string)
    (table : list Workspace.t) (tenant : Workspace.t) :
  cf_webhook_auth req = Some webhookSecret ->
  hostname req = Some h ->
  find (matches (WhereCustomDomain h)) table = Some tenant ->
  getCustomDomainDetails h = Return None ->
  let first := run (customHostnameWebhooks webhookSecret
                      getCustomDomainDetails req) table in
  fst first = Return Status200
  /\ writes (journal (snd first)) = [cleared tenant]
  /\ rows (snd first) = Repository.upsert (cleared tenant) table
  /\ ((forall r, In r table -> Workspace.customDomain r = Some h ->
                 Workspace.subdomain r = Workspace.subdomain tenant) ->
      forall getCustomDomainDetails',
        let second := run (customHostnameWebhooks webhookSecret
                             getCustomDomainDetails' req) (rows (snd first)) in
        fst second = Return Status200
        /\ writes (journal (snd second)) = []
        /\ rows (snd second) = rows (snd first)).
Proof.
  intros Hauth Hhost Hfind Hdetails first.
  assert (Hfirst : first =
    (Return Status200,
     {| rows := Repository.upsert (cleared tenant) table;
        journal := [RepositoryFindOne (WhereCustomDomain h);
                    CustomDomainDetailsLookup h;
                    RepositorySave (cleared tenant)] |})).
  { subst first.
    unfold run, customHostnameWebhooks, lookupCustomDomainDetails.
    apply opt_eqb_eq in Hauth. rewrite Hauth, Hhost. cbn [negb].
    run_m. rewrite Hfind. cbn [rows journal]. rewrite Hdetails.
    apply find_some in Hfind as [_ Hclaims]. cbn [matches] in Hclaims.
    rewrite Hclaims. reflexivity. }
  rewrite Hfirst. cbn [fst snd rows journal].
  split; [reflexivity|]. split; [reflexivity|]. split; [reflexivity|].
  intros Honly getCustomDomainDetails'.
  unfold run, customHostnameWebhooks.
  apply opt_eqb_eq in Hauth. rewrite Hauth, Hhost. cbn [negb].
  run_m. rewrite (find_customDomain_after_clear h table tenant Hfind Honly).
  cbn. now repeat split.
Qed.

(** Details without records turn a disabled custom domain on. *)
Lemma webhook_no_records_enables (req : WebhookRequest) (h : string)
    (table : list Workspace.t) (tenant : Workspace.t) :
  cf_webhook_auth req = Some webhookSecret ->
  hostname req = Some h ->
  find (matches (WhereCustomDomain h)) table = Some tenant ->
  getCustomDomainDetails h = Return (Some {| records := [] |}) ->
  Workspace.isCustomDomainEnabled tenant = false ->
  writes (journal (snd (run (customHostnameWebhooks webhookSecret
                               getCustomDomainDetails req) table)))
  = [reconciled tenant h true].
Proof.
  intros Hauth Hhost Hfind Hdetails Hflag.
  unfold run, customHostnameWebhooks, lookupCustomDomainDetails.
  apply opt_eqb_eq in Hauth. rewrite Hauth, Hhost. cbn [negb].
  run_m. rewrite Hfind. cbn [rows journal]. rewrite Hdetails, Hflag.
  reflexivity.
Qed.

End WebhookFacts.

(** The cases of the test-suite: a wrong secret and a missing header. *)
Lemma webhook_wrong_secret_witness :
  run (customHostnameWebhooks TestSuite.secret TestSuite.validated
         {| cf_webhook_auth := Some "wrong-secret";
            hostname := Some "example.com" |})
      [TestSuite.tenant (Some "example.com") false]
  = (Return AuthenticationFailure,
     {| rows := [TestSuite.tenant (Some "example.com") false]; journal := [] |})
  /\ fst (run (customHostnameWebhooks TestSuite.secret TestSuite.validated
                 {| cf_webhook_auth := None; hostname := Some "example.com" |})
              [TestSuite.tenant (Some "example.com") false])
     = Return AuthenticationFailure.
Proof.
  split.
  - reflexivity.
  - apply (webhook_wrong_secret TestSuite.secret TestSuite.validated
             {| cf_webhook_auth := None; hostname := Some "example.com" |}
             [TestSuite.tenant (Some "example.com") false]).
    discriminate.
Defined.

Lemma webhook_without_hostname_witness :
  fst (run (customHostnameWebhooks TestSuite.secret TestSuite.validated
              (TestSuite.request None))
           [TestSuite.tenant (Some "example.com") false])
  = Return Status200
  /\ rows (snd (run (customHostnameWebhooks TestSuite.secret TestSuite.validated
                       (TestSuite.request None))
                    [TestSuite.tenant (Some "example.com") false]))
     = [TestSuite.tenant (Some "example.com") false].
Proof.
  destruct (webhook_without_hostname TestSuite.secret TestSuite.validated
              (TestSuite.request None)
              [TestSuite.tenant (Some "example.com") false]
              eq_refl eq_refl) as (Hanswer & _ & Hrows).
  split; [exact Hanswer | exact Hrows].
Defined.

(** The test-suite's "update workspace for a valid hostname" and "do
    nothing if nothing changes". *)
Lemma webhook_with_details_witness :
  writes (journal (snd
    (run (customHostnameWebhooks TestSuite.secret TestSuite.validated
            (TestSuite.request (Some "example.com")))
         [TestSuite.tenant (Some "example.com") false])))
  = [TestSuite.tenant (Some "example.com") true]
  /\ writes (journal (snd
       (run (customHostnameWebhooks TestSuite.secret TestSuite.validated
               (TestSuite.request (Some "nothing-change.com")))
            [TestSuite.tenant (Some "nothing-change.com") true])))
     = [].
Proof.
  split.
  - destruct (webhook_with_details TestSuite.secret TestSuite.validated
                (TestSuite.request (Some "example.com")) "example.com"
                [TestSuite.tenant (Some "example.com") false]
                (TestSuite.tenant (Some "example.com") false)
                {| records := [ {| status := "success" |} ] |}
                eq_refl eq_refl eq_refl eq_refl) as (_ & _ & Hdiffers & _).
    apply Hdiffers. discriminate.
  - destruct (webhook_with_details TestSuite.secret TestSuite.validated
                (TestSuite.request (Some "nothing-change.com"))
                "nothing-change.com"
                [TestSuite.tenant (Some "nothing-change.com") true]
                (TestSuite.tenant (Some "nothing-change.com") true)
                {| records := [ {| status := "success" |} ] |}
                eq_refl eq_refl eq_refl eq_refl) as (_ & _ & _ & Hsame).
    apply Hsame. reflexivity.
Defined.

(** The test-suite's "remove customDomain if no hostname found", and the
    same request delivered once more. *)
Lemma webhook_without_details_witness :
  let first :=
    run (customHostnameWebhooks TestSuite.secret TestSuite.unknown
           (TestSuite.request (Some "notfound.com")))
        [TestSuite.tenant (Some "notfound.com") true] in
  writes (journal (snd first)) = [TestSuite.tenant None false]
  /\ writes (journal (snd
       (run (customHostnameWebhooks TestSuite.secret TestSuite.unknown
               (TestSuite.request (Some "notfound.com")))
            (rows (snd first)))))
     = [].
Proof.
  intros first.
  destruct (webhook_without_details TestSuite.secret TestSuite.unknown
              (TestSuite.request (Some "notfound.com")) "notfound.com"
              [TestSuite.tenant (Some "notfound.com") true]
              (TestSuite.tenant (Some "notfound.com") true)
              eq_refl eq_refl eq_refl eq_refl) as (_ & Hwrite & _ & Hagain).
  split.
  - exact Hwrite.
  - apply Hagain. intros r [<-|[]] _. reflexivity.
Defined.

(* ================================================================== *)
(** * Further properties of the services *)

(** ** Strings, continued *)
Module JsStringMore.
Import JsString JsStringFacts.

Lemma indexOf_unfold (s pat : string) :
  indexOf s pat =
  if startsWith s pat then Some 0
  else match s with
       | EmptyString => None
       | String _ s' => option_map S (indexOf s' pat)
       end.
Proof. destruct s; reflexivity. Qed.

Lemma replace_unfold (s pat rep : string) :
  replace s pat rep =
  if startsWith s pat then rep ++ slice (String.length pat) s
  else match s with
       | EmptyString => EmptyString
       | String c s' => String c (replace s' pat rep)
       end.
Proof. destruct s; reflexivity. Qed.

(** [replace] cuts the string at the first occurrence of the pattern and
    puts the replacement in its place. *)
Lemma replace_first_occurrence (s pat rep : string) (i : nat) :
  indexOf s pat = Some i ->
  exists a b, s = a ++ pat ++ b
              /\ String.length a = i
              /\ replace s pat rep = a ++ rep ++ b.
Proof.
  revert i; induction s as [|c s IH]; intros i.
  - rewrite indexOf_unfold, replace_unfold.
    destruct (startsWith "" pat) eqn:E; [|discriminate].
    intros [= <-]. exists "", (slice (String.length pat) "").
    repeat split. exact (startsWith_inv pat "" E).
  - rewrite indexOf_unfold, replace_unfold.
    destruct (startsWith (String c s) pat) eqn:E.
    + intros [= <-]. exists "", (slice (String.length pat) (String c s)).
      repeat split. exact (startsWith_inv pat (String c s) E).
    + destruct (indexOf s pat) as [j|] eqn:Ej; [|discriminate].
      intros [= <-]. destruct (IH j eq_refl) as (a & b & Hs & Hl & Hr).
      exists (String c a), b. cbn [String.append String.length].
      repeat split; congruence.
Qed.

(** Without occurrence of the pattern, [replace] changes nothing. *)
Lemma replace_no_occurrence (s pat rep : string) :
  indexOf s pat = None -> replace s pat rep = s.
Proof.
  induction s as [|c s IH]; rewrite indexOf_unfold, replace_unfold.
  - now destruct (startsWith "" pat).
  - destruct (startsWith (String c s) pat); [discriminate|].
    destruct (indexOf s pat); [discriminate|].
    intros _. now rewrite IH.
Qed.

Lemma indexOf_found (p rest pat : string) :
  startsWith rest pat = true -> exists i, indexOf (p ++ rest) pat = Some i.
Proof.
  intros H. induction p as [|c p [i IH]].
  - exists 0. cbn [String.append]. rewrite indexOf_unfold. now rewrite H.
  - cbn [String.append]. rewrite indexOf_unfold.
    destruct (startsWith (String c (p ++ rest)) pat).
    + now exists 0.
    + rewrite IH. now exists (S i).
Qed.

(** A string that ends with the pattern contains it. *)
Lemma endsWith_indexOf (s pat : string) :
  endsWith s pat = true -> exists i, indexOf s pat = Some i.
Proof.
  intros H. destruct (endsWith_inv s pat H) as [p ->].
  apply indexOf_found.
  pose proof (startsWith_app pat "") as E.
  now rewrite append_empty_r in E.
Qed.

(** No string ends with something longer than itself. *)
Lemma endsWith_longer (s suf : string) :
  String.length s < String.length suf -> endsWith s suf = false.
Proof.
  intros H. unfold endsWith.
  replace (String.length suf <=? String.length s)%nat with false;
    [reflexivity|].
  symmetry. apply Nat.leb_gt. exact H.
Qed.

End JsStringMore.

(* ================================================================== *)
(** ** From an origin to the key of a workspace, continued *)
Section OriginKeyMore.
Context {api : URLApi}.
Variable env : Environment.

Import JsString JsStringFacts JsStringMore.

(** X1.  The function throws exactly when the origin is not a URL, with
    the platform's error, or else when the front URL cannot be built, with
    the error of that. *)
Theorem origin_key_throws (url message : string) :
  getSubdomainAndCustomDomainFromUrl env url = Throw message
  <-> URL_new url = Throw message
      \/ (exists origin, URL_new url = Return origin
                         /\ getFrontUrl env = Throw message).
Proof.
  unfold getSubdomainAndCustomDomainFromUrl.
  destruct (URL_new url) as [origin|m]; cbn [obind].
  - destruct (getFrontUrl env) as [front|m]; cbn [obind].
    + split; [discriminate|].
      intros [H|(o & _ & H)]; discriminate H.
    + split.
      * intros [= ->]. right. exists origin. now split.
      * intros [H|(o & _ & [= ->])]; [discriminate H | reflexivity].
  - split.
    + intros [= ->]. now left.
    + intros [[= ->]|(o & H & _)]; [reflexivity | discriminate H].
Qed.

(** X2.  An origin on the front domain itself, without any label before
    it, is taken for a custom domain: the front domain comes back as
    [customDomain], and there is no subdomain. *)
Theorem origin_key_bare_front_domain (url : string) (origin front : URL) :
  URL_new url = Return origin ->
  getFrontUrl env = Return front ->
  URL_hostname origin = URL_hostname front ->
  getSubdomainAndCustomDomainFromUrl env url =
  Return {| OriginKey.subdomain := None;
            OriginKey.customDomain := Some (URL_hostname front) |}.
Proof.
  intros Ho Hf Hsame.
  rewrite (getSubdomainAndCustomDomainFromUrl_eq env url origin front Ho Hf).
  cbv zeta. rewrite Hsame.
  rewrite (endsWith_longer (URL_hostname front) ("." ++ URL_hostname front)).
  - reflexivity.
  - cbn [String.append String.length]. lia.
Qed.

(** X3.  The subdomain that is returned is never the default subdomain. *)
Theorem origin_key_never_default (url : string) (key : OriginKey.t)
    (s : string) :
  getSubdomainAndCustomDomainFromUrl env url = Return key ->
  OriginKey.subdomain key = Some s ->
  DEFAULT_SUBDOMAIN env <> Some s.
Proof.
  intros H Hs.
  destruct (getSubdomainAndCustomDomainFromUrl_inv env url key H)
    as (origin & front & Ho & Hf).
  rewrite (getSubdomainAndCustomDomainFromUrl_eq env url origin front Ho Hf) in H.
  cbv zeta in H. injection H as Hk. subst key.
  cbn [OriginKey.subdomain] in Hs.
  destruct (endsWith _ _); cbn [andb] in Hs; [|discriminate].
  destruct (isDefaultSubdomain env _) eqn:Hd; cbn [negb] in Hs; [discriminate|].
  injection Hs as Hs. rewrite Hs in Hd.
  unfold isDefaultSubdomain in Hd. intros Heq. rewrite Heq in Hd.
  cbn in Hd. rewrite String.eqb_refl in Hd. discriminate Hd.
Qed.

(** X4.  A subdomain that is returned is the hostname of the origin with
    the first occurrence of ["." ++ frontDomain] cut out: the hostname is
    [a ++ "." ++ frontDomain ++ b], no occurrence starts before the end of
    [a], and the subdomain is [a ++ b].  The hostname also ends with
    ["." ++ frontDomain], and the custom domain is null. *)
Theorem origin_key_subdomain_shape (url : string) (origin front : URL)
    (key : OriginKey.t) (s : string) :
  URL_new url = Return origin ->
  getFrontUrl env = Return front ->
  getSubdomainAndCustomDomainFromUrl env url = Return key ->
  OriginKey.subdomain key = Some s ->
  OriginKey.customDomain key = None
  /\ endsWith (URL_hostname origin) ("." ++ URL_hostname front) = true
  /\ exists a b,
      URL_hostname origin = a ++ ("." ++ URL_hostname front) ++ b
      /\ indexOf (URL_hostname origin) ("." ++ URL_hostname front)
         = Some (String.length a)
      /\ s = a ++ b.
Proof.
  intros Ho Hf H Hs.
  rewrite (getSubdomainAndCustomDomainFromUrl_eq env url origin front Ho Hf) in H.
  cbv zeta in H.
  remember ("." ++ URL_hostname front) as pat eqn:Hpat in *.
  injection H as Hk. subst key.
  cbn [OriginKey.subdomain OriginKey.customDomain] in *.
  destruct (endsWith (URL_hostname origin) pat) eqn:He;
    cbn [andb] in Hs; [|discriminate].
  destruct (isDefaultSubdomain env _); cbn [negb] in Hs; [discriminate|].
  injection Hs as Hs.
  split; [reflexivity|]. split; [reflexivity|].
  destruct (endsWith_indexOf _ _ He) as [i Hi].
  destruct (replace_first_occurrence _ _ "" i Hi) as (a & b & Hh & Hl & Hr).
  exists a, b. split; [exact Hh|]. split.
  - now rewrite Hl.
  - rewrite <- Hs, Hr. reflexivity.
Qed.

End OriginKeyMore.

Lemma origin_key_bare_front_domain_witness :
  getSubdomainAndCustomDomainFromUrl (api := TestPlatform.simple)
    (TestPlatform.exampleEnv true) "https://example.com/welcome"
  = Return {| OriginKey.subdomain := None;
              OriginKey.customDomain := Some "example.com" |}.
Proof.
  exact (origin_key_bare_front_domain (api := TestPlatform.simple)
           (TestPlatform.exampleEnv true) "https://example.com/welcome"
           _ _ eq_refl eq_refl eq_refl).
Defined.

Lemma origin_key_never_default_witness :
  DEFAULT_SUBDOMAIN (TestPlatform.exampleEnv true) <> Some "acme".
Proof.
  exact (origin_key_never_default (api := TestPlatform.simple)
           (TestPlatform.exampleEnv true) "https://acme.example.com"
           _ "acme" eq_refl eq_refl).
Defined.

(** The hostname [x.example.com.y.example.com] loses its first
    [.example.com]. *)
Lemma origin_key_subdomain_shape_witness :
  exists a b,
    "x.example.com.y.example.com" = a ++ ".example.com" ++ b
    /\ JsString.indexOf "x.example.com.y.example.com" ".example.com"
       = Some (String.length a)
    /\ "x.y.example.com" = a ++ b.
Proof.
  exact (proj2 (proj2
    (origin_key_subdomain_shape (api := TestPlatform.simple)
       (TestPlatform.exampleEnv true) "https://x.example.com.y.example.com"
       _ _ _ "x.y.example.com" eq_refl eq_refl eq_refl eq_refl))).
Defined.

(* ================================================================== *)
(** ** The front URL *)
Section FrontUrlFacts.
Context {api : URLApi}.

(** X5.  A front port of 0 counts as no front port, and an empty front
    domain as no front domain: the front URL is the same. *)
Theorem getFrontUrl_falsy_config (env : Environment) :
  getFrontUrl (withFrontPort env (Some 0%Z)) = getFrontUrl (withFrontPort env None)
  /\ getFrontUrl (withFrontDomain env (Some ""))
     = getFrontUrl (withFrontDomain env None).
Proof. split; reflexivity. Qed.

(** What the front URL is parsed from. *)
Lemma getFrontUrl_inv (env : Environment) (front : URL) :
  getFrontUrl env = Return front ->
  exists base,
    URL_new (if JsString.truthy_opt (FRONT_DOMAIN env)
             then JsString.interpolate (FRONT_PROTOCOL env) ++ "://"
                  ++ JsString.interpolate (FRONT_DOMAIN env)
             else SERVER_URL env) = Return base
    /\ front =
       (let withPort :=
          match FRONT_PORT env with
          | Some p => if truthy_number p
                      then URL_set_port base (JsString.of_Z p) else base
          | None => base
          end in
        match FRONT_PROTOCOL env with
        | Some p => if JsString.truthy p
                    then URL_set_protocol withPort p else withPort
        | None => withPort
        end).
Proof.
  unfold getFrontUrl.
  destruct (JsString.truthy_opt (FRONT_DOMAIN env)); cbn [negb];
    (destruct (URL_new _) as [base|m]; cbn [obind]; [|discriminate]);
    intros [= <-]; exists base; split; reflexivity.
Qed.

Hypothesis port_keeps_hostname :
  forall u p, URL_hostname (URL_set_port u p) = URL_hostname u.
Hypothesis protocol_keeps_hostname :
  forall u p, URL_hostname (URL_set_protocol u p) = URL_hostname u.

(** X6.  On a platform where setting the port or the protocol of a URL
    leaves its hostname alone, the hostname of the front URL, against which
    origins are matched, is the hostname of [FRONT_PROTOCOL://FRONT_DOMAIN]
    as parsed, or that of [SERVER_URL] without front domain; [FRONT_PORT]
    has no part in it. *)
Theorem getFrontUrl_hostname (env : Environment) (front : URL) :
  getFrontUrl env = Return front ->
  exists base,
    URL_new (if JsString.truthy_opt (FRONT_DOMAIN env)
             then JsString.interpolate (FRONT_PROTOCOL env) ++ "://"
                  ++ JsString.interpolate (FRONT_DOMAIN env)
             else SERVER_URL env) = Return base
    /\ URL_hostname front = URL_hostname base.
Proof.
  intros H. destruct (getFrontUrl_inv env front H) as (base & Hbase & ->).
  exists base. split; [exact Hbase|]. cbv zeta.
  destruct (FRONT_PROTOCOL env) as [p|]; [destruct (JsString.truthy p)|];
    rewrite ?protocol_keeps_hostname;
    (destruct (FRONT_PORT env) as [n|]; [destruct (truthy_number n)|]);
    rewrite ?port_keeps_hostname; reflexivity.
Qed.

End FrontUrlFacts.

(** A deployment on port 3001: the front domain stays [example.com]. *)
Lemma getFrontUrl_hostname_witness :
  exists base,
    URL_new (URLApi := TestPlatform.simple) "https://example.com" = Return base
    /\ "example.com" = URL_hostname base.
Proof.
  exact (getFrontUrl_hostname (api := TestPlatform.simple)
           (fun u p => eq_refl) (fun u p => eq_refl)
           (withFrontPort (TestPlatform.exampleEnv true) (Some 3001%Z))
           _ eq_refl).
Defined.

Section FrontUrlProtocol.
Context {api : URLApi}.

(** X7.  With a front domain but without front protocol, the front URL is
    parsed from ["undefined://" ++ FRONT_DOMAIN]: the missing protocol is
    written into the URL as the word [undefined], and no protocol is set
    afterwards. *)
Theorem getFrontUrl_without_protocol (env : Environment) (domain : string) :
  FRONT_DOMAIN env = Some domain ->
  domain <> "" ->
  FRONT_PROTOCOL env = None ->
  getFrontUrl env =
  obind (URL_new ("undefined://" ++ domain))
    (fun base =>
       Return match FRONT_PORT env with
              | Some p => if truthy_number p
                          then URL_set_port base (JsString.of_Z p) else base
              | None => base
              end).
Proof.
  intros Hd Hne Hp. unfold getFrontUrl. rewrite Hd, Hp.
  cbn [JsString.truthy_opt JsString.interpolate]. unfold JsString.truthy.
  destruct (String.eqb_spec domain "") as [He|_]; [contradiction|].
  reflexivity.
Qed.

End FrontUrlProtocol.

Lemma getFrontUrl_without_protocol_witness :
  option_map (URL_toString (URLApi := TestPlatform.simple))
    (match getFrontUrl (api := TestPlatform.simple)
             {| FRONT_PORT := Some 3001%Z; FRONT_DOMAIN := Some "example.com";
                FRONT_PROTOCOL := None; SERVER_URL := "http://localhost:3000";
                IS_MULTIWORKSPACE_ENABLED := true; DEFAULT_SUBDOMAIN := None;
                CACHE_STORAGE_TYPE := "memory"; CACHE_STORAGE_TTL := 5%Z;
                REDIS_URL := None |}
     with Return u => Some u | Throw _ => None end)
  = Some "undefined://example.com:3001/".
Proof.
  rewrite (getFrontUrl_without_protocol (api := TestPlatform.simple)
             {| FRONT_PORT := Some 3001%Z; FRONT_DOMAIN := Some "example.com";
                FRONT_PROTOCOL := None; SERVER_URL := "http://localhost:3000";
                IS_MULTIWORKSPACE_ENABLED := true; DEFAULT_SUBDOMAIN := None;
                CACHE_STORAGE_TYPE := "memory"; CACHE_STORAGE_TTL := 5%Z;
                REDIS_URL := None |}
             "example.com" eq_refl ltac:(discriminate) eq_refl).
  reflexivity.
Defined.

(* ================================================================== *)
(** ** URLs that are built, read as origins *)
Section RoundTrips.
Context {api : URLApi}.
Variable env : Environment.

Import JsString JsStringFacts JsStringMore.

(** The key of an origin whose hostname is one label before the front
    domain. *)
Lemma key_of_label (url : string) (origin front : URL) (label : string) :
  URL_new url = Return origin ->
  getFrontUrl env = Return front ->
  URL_hostname origin = label ++ "." ++ URL_hostname front ->
  leadingLabel (label ++ "." ++ URL_hostname front) = label ->
  getSubdomainAndCustomDomainFromUrl env url =
  Return {| OriginKey.subdomain :=
              if isDefaultSubdomain env label then None else Some label;
            OriginKey.customDomain := None |}.
Proof.
  intros Ho Hf Hh Hl.
  rewrite (getSubdomainAndCustomDomainFromUrl_eq env url origin front Ho Hf).
  cbv zeta. rewrite Hh.
  rewrite (endsWith_app label ("." ++ URL_hostname front)).
  rewrite (replace_suffix label ("." ++ URL_hostname front)
             (indexOf_after_leading_label label (URL_hostname front) Hl)).
  cbn [andb]. now destruct (isDefaultSubdomain env label).
Qed.

(** X8.  The URL that [getTwentyWorkspaceUrl] builds for a subdomain of one
    label leads back to that subdomain: read as an origin it yields the
    subdomain and a null custom domain, provided the subdomain is not the
    default one and the platform keeps the hostname it is given. *)
Theorem subdomain_url_round_trip (front : URL) (subdomain : string) :
  getFrontUrl env = Return front ->
  hostnameSurvives front (subdomain ++ "." ++ URL_hostname front) ->
  leadingLabel (subdomain ++ "." ++ URL_hostname front) = subdomain ->
  DEFAULT_SUBDOMAIN env <> Some subdomain ->
  obind (getTwentyWorkspaceUrl env subdomain)
        (getSubdomainAndCustomDomainFromUrl env)
  = Return {| OriginKey.subdomain := Some subdomain;
              OriginKey.customDomain := None |}.
Proof.
  intros Hf [Hhost Hparse] Hlabel Hdefault.
  unfold getTwentyWorkspaceUrl. rewrite Hf. cbn [obind].
  rewrite (key_of_label _ _ front subdomain Hparse Hf Hhost Hlabel).
  replace (isDefaultSubdomain env subdomain) with false; [reflexivity|].
  symmetry. unfold isDefaultSubdomain.
  destruct (opt_eqb (Some subdomain) (DEFAULT_SUBDOMAIN env)) eqn:E;
    [|reflexivity].
  apply opt_eqb_eq in E. now contradiction Hdefault.
Qed.

(** X9.  The URL that [getCustomWorkspaceUrl] builds for a custom domain
    leads back to that custom domain: read as an origin it yields the
    domain as [customDomain] and no subdomain, provided the domain does not
    end with ["." ++ frontDomain] and the platform keeps the hostname it is
    given. *)
Theorem custom_url_round_trip (front : URL) (customDomain : string) :
  getFrontUrl env = Return front ->
  hostnameSurvives front customDomain ->
  endsWith customDomain ("." ++ URL_hostname front) = false ->
  obind (getCustomWorkspaceUrl env customDomain)
        (getSubdomainAndCustomDomainFromUrl env)
  = Return {| OriginKey.subdomain := None;
              OriginKey.customDomain := Some customDomain |}.
Proof.
  intros Hf [Hhost Hparse] Hends.
  unfold getCustomWorkspaceUrl. rewrite Hf. cbn [obind].
  rewrite (getSubdomainAndCustomDomainFromUrl_eq env _ _ front Hparse Hf).
  cbv zeta. rewrite Hhost, Hends. reflexivity.
Qed.

(** X10.  In multi-workspace mode with a default subdomain of one label,
    the base URL read as an origin yields neither subdomain nor custom
    domain, provided the platform keeps the hostname it is given. *)
Theorem base_url_round_trip (front : URL) (default : string) :
  getFrontUrl env = Return front ->
  IS_MULTIWORKSPACE_ENABLED env = true ->
  DEFAULT_SUBDOMAIN env = Some default ->
  default <> "" ->
  hostnameSurvives front (default ++ "." ++ URL_hostname front) ->
  leadingLabel (default ++ "." ++ URL_hostname front) = default ->
  obind (getBaseUrl env)
        (fun base => getSubdomainAndCustomDomainFromUrl env (URL_toString base))
  = Return {| OriginKey.subdomain := None; OriginKey.customDomain := None |}.
Proof.
  intros Hf Hmulti Hdefault Hne [Hhost Hparse] Hlabel.
  unfold getBaseUrl. rewrite Hf, Hmulti, Hdefault.
  cbn [obind andb truthy_opt interpolate]. unfold truthy.
  destruct (String.eqb_spec default "") as [He|_]; [contradiction|].
  cbn [negb obind].
  rewrite (key_of_label _ _ front default Hparse Hf Hhost Hlabel).
  unfold isDefaultSubdomain. rewrite Hdefault. cbn [opt_eqb].
  now rewrite String.eqb_refl.
Qed.

End RoundTrips.

Lemma subdomain_url_round_trip_witness :
  obind (getTwentyWorkspaceUrl (api := TestPlatform.simple)
           (TestPlatform.exampleEnv true) "acme")
        (getSubdomainAndCustomDomainFromUrl (api := TestPlatform.simple)
           (TestPlatform.exampleEnv true))
  = Return {| OriginKey.subdomain := Some "acme";
              OriginKey.customDomain := None |}.
Proof.
  apply (subdomain_url_round_trip (api := TestPlatform.simple)
           (TestPlatform.exampleEnv true) _ "acme" eq_refl).
  - split; reflexivity.
  - reflexivity.
  - discriminate.
Defined.

Lemma custom_url_round_trip_witness :
  obind (getCustomWorkspaceUrl (api := TestPlatform.simple)
           (TestPlatform.exampleEnv true) "crm.acme.org")
        (getSubdomainAndCustomDomainFromUrl (api := TestPlatform.simple)
           (TestPlatform.exampleEnv true))
  = Return {| OriginKey.subdomain := None;
              OriginKey.customDomain := Some "crm.acme.org" |}.
Proof.
  apply (custom_url_round_trip (api := TestPlatform.simple)
           (TestPlatform.exampleEnv true) _ "crm.acme.org" eq_refl).
  - split; reflexivity.
  - reflexivity.
Defined.

Lemma base_url_round_trip_witness :
  obind (getBaseUrl (api := TestPlatform.simple) (TestPlatform.exampleEnv true))
        (fun base =>
           getSubdomainAndCustomDomainFromUrl (api := TestPlatform.simple)
             (TestPlatform.exampleEnv true) (URL_toString base))
  = Return {| OriginKey.subdomain := None; OriginKey.customDomain := None |}.
Proof.
  apply (base_url_round_trip (api := TestPlatform.simple)
           (TestPlatform.exampleEnv true) _ "app" eq_refl eq_refl eq_refl).
  - discriminate.
  - split; reflexivity.
  - reflexivity.
Defined.

(* ================================================================== *)
(** ** Resolution in multi-workspace mode *)
Section MultiWorkspaceFacts.
Context {api : URLApi}.
Variable env : Environment.

Import JsString.

(** The condition of a query, as the method picks it from a key. *)
Let whereOf (key : OriginKey.t) : option Where :=
  if isDefined (OriginKey.customDomain key)
  then option_map WhereCustomDomain (OriginKey.customDomain key)
  else option_map WhereSubdomain (OriginKey.subdomain key).

(** The run of [getWorkspaceByOriginOrDefaultWorkspace] in multi-workspace
    mode, in full. *)
Lemma getWorkspaceByOrigin_multi_run (origin : string) (w : World) :
  IS_MULTIWORKSPACE_ENABLED env = true ->
  getWorkspaceByOriginOrDefaultWorkspace env origin w =
  match getSubdomainAndCustomDomainFromUrl env origin with
  | Throw m => (Throw m, w)
  | Return key =>
      if negb (truthy_opt (OriginKey.customDomain key))
         && negb (truthy_opt (OriginKey.subdomain key))
      then (Return None, w)
      else match whereOf key with
           | Some q =>
               (Return (find (matches q) (rows w)),
                {| rows := rows w;
                   journal := (journal w ++ [RepositoryFindOne q])%list |})
           | None => (Return None, w)
           end
  end.
Proof.
  intros Hmulti. unfold getWorkspaceByOriginOrDefaultWorkspace, whereOf.
  rewrite Hmulti. cbn [negb]. unfold bind at 1, lift.
  destruct (getSubdomainAndCustomDomainFromUrl env origin) as [key|m];
    [|reflexivity].
  destruct (negb (truthy_opt (OriginKey.customDomain key))
            && negb (truthy_opt (OriginKey.subdomain key))); [reflexivity|].
  destruct (if isDefined (OriginKey.customDomain key)
            then option_map WhereCustomDomain (OriginKey.customDomain key)
            else option_map WhereSubdomain (OriginKey.subdomain key));
    reflexivity.
Qed.

(** X11.  In multi-workspace mode, resolution by origin leaves the stored
    rows as they are, writes nothing, logs no warning and reads the
    repository at most once.  A workspace that it returns is a stored row,
    and it holds the custom domain of the origin's key when the key has
    one, and the subdomain of the key otherwise. *)
Theorem multi_workspace_resolution_footprint (origin : string)
    (table : list Workspace.t) :
  IS_MULTIWORKSPACE_ENABLED env = true ->
  let outcome := run (getWorkspaceByOriginOrDefaultWorkspace env origin) table in
  rows (snd outcome) = table
  /\ writes (journal (snd outcome)) = []
  /\ warnings (journal (snd outcome)) = []
  /\ List.length (reads (journal (snd outcome))) <= 1
  /\ (forall w, fst outcome = Return (Some w) ->
        In w table
        /\ exists key,
            getSubdomainAndCustomDomainFromUrl env origin = Return key
            /\ match OriginKey.customDomain key with
               | Some d => Workspace.customDomain w = Some d
               | None => OriginKey.subdomain key = Some (Workspace.subdomain w)
               end).
Proof.
  intros Hmulti. unfold run.
  rewrite (getWorkspaceByOrigin_multi_run origin _ Hmulti). cbn [rows journal].
  assert (Hquiet : forall o : Outcome (option Workspace.t),
    (forall w, o <> Return (Some w)) ->
    let outcome := (o, {| rows := table; journal := [] |}) in
    rows (snd outcome) = table
    /\ writes (journal (snd outcome)) = []
    /\ warnings (journal (snd outcome)) = []
    /\ List.length (reads (journal (snd outcome))) <= 1
    /\ (forall w, fst outcome = Return (Some w) ->
          In w table
          /\ exists key,
              getSubdomainAndCustomDomainFromUrl env origin = Return key
              /\ match OriginKey.customDomain key with
                 | Some d => Workspace.customDomain w = Some d
                 | None => OriginKey.subdomain key = Some (Workspace.subdomain w)
                 end)).
  { intros o Ho outcome. subst outcome. cbn.
    split; [reflexivity|]. split; [reflexivity|]. split; [reflexivity|].
    split; [lia|]. intros w Hw. now contradiction (Ho w). }
  destruct (getSubdomainAndCustomDomainFromUrl env origin) as [key|m].
  2:{ apply Hquiet. discriminate. }
  destruct (negb (truthy_opt (OriginKey.customDomain key))
            && negb (truthy_opt (OriginKey.subdomain key))).
  { apply Hquiet. discriminate. }
  unfold whereOf.
  destruct (OriginKey.customDomain key) as [d|] eqn:Hd; cbn [isDefined option_map].
  - cbn. split; [reflexivity|]. split; [reflexivity|]. split; [reflexivity|].
    split; [lia|]. intros w [= Hw]. split.
    + now apply find_some in Hw as [Hin _].
    + exists key. split; [reflexivity|]. rewrite Hd.
      apply find_some in Hw as [_ Hm]. now apply opt_eqb_eq in Hm.
  - destruct (OriginKey.subdomain key) as [s|] eqn:Hs; cbn [option_map].
    + cbn. split; [reflexivity|]. split; [reflexivity|]. split; [reflexivity|].
      split; [lia|]. intros w [= Hw]. split.
      * now apply find_some in Hw as [Hin _].
      * exists key. split; [reflexivity|]. rewrite Hd, Hs.
        apply find_some in Hw as [_ Hm]. cbn in Hm.
        apply String.eqb_eq in Hm. now rewrite Hm.
    + apply Hquiet. discriminate.
Qed.

(** X12.  In multi-workspace mode, an origin whose key has neither a
    non-empty custom domain nor a non-empty subdomain (the origin on the
    default subdomain is one) resolves to no workspace, and the repository
    is not even asked, whatever is stored. *)
Theorem multi_workspace_no_key (origin : string) (key : OriginKey.t)
    (table : list Workspace.t) :
  IS_MULTIWORKSPACE_ENABLED env = true ->
  getSubdomainAndCustomDomainFromUrl env origin = Return key ->
  truthy_opt (OriginKey.customDomain key) = false ->
  truthy_opt (OriginKey.subdomain key) = false ->
  run (getWorkspaceByOriginOrDefaultWorkspace env origin) table
  = (Return None, {| rows := table; journal := [] |}).
Proof.
  intros Hmulti Hkey Hc Hs. unfold run.
  rewrite (getWorkspaceByOrigin_multi_run origin _ Hmulti), Hkey, Hc, Hs.
  reflexivity.
Qed.

(** X13.  In multi-workspace mode, resolution by origin throws exactly when
    the key of the origin cannot be computed, with the same error, and the
    repository is then not touched. *)
Theorem multi_workspace_resolution_throws (origin message : string)
    (table : list Workspace.t) :
  IS_MULTIWORKSPACE_ENABLED env = true ->
  (fst (run (getWorkspaceByOriginOrDefaultWorkspace env origin) table)
   = Throw message
   <-> getSubdomainAndCustomDomainFromUrl env origin = Throw message)
  /\ (getSubdomainAndCustomDomainFromUrl env origin = Throw message ->
      snd (run (getWorkspaceByOriginOrDefaultWorkspace env origin) table)
      = {| rows := table; journal := [] |}).
Proof.
  intros Hmulti. unfold run.
  rewrite (getWorkspaceByOrigin_multi_run origin _ Hmulti).
  destruct (getSubdomainAndCustomDomainFromUrl env origin) as [key|m].
  - split; [|discriminate].
    destruct (negb _ && negb _); [split; discriminate|].
    destruct (whereOf key); split; discriminate.
  - split; [|reflexivity]. cbn [fst].
    split; intros [= ->]; reflexivity.
Qed.

(** X14.  In multi-workspace mode there is no default workspace: asking
    for the workspace of no subdomain, or of the empty one, throws, and the
    repository is not touched. *)
Theorem no_default_workspace_in_multi_mode (subdomain : option string)
    (table : list Workspace.t) :
  IS_MULTIWORKSPACE_ENABLED env = true ->
  truthy_opt subdomain = false ->
  run (getWorkspaceBySubdomainOrDefaultWorkspace env subdomain) table
  = (Throw "Default workspace not exist when multi-workspace is enabled",
     {| rows := table; journal := [] |}).
Proof.
  intros Hmulti Hfalsy.
  unfold run, getWorkspaceBySubdomainOrDefaultWorkspace, getDefaultWorkspace.
  rewrite Hmulti. cbn [negb].
  destruct subdomain as [s|]; [|reflexivity].
  cbn [truthy_opt] in Hfalsy. rewrite Hfalsy. reflexivity.
Qed.

(** X15.  In either mode, asking for the workspace of a non-empty
    subdomain is one read of the repository and no write.  What comes back
    is a stored row with that subdomain, and nothing comes back exactly
    when no stored row has it. *)
Theorem workspace_by_subdomain (subdomain : string)
    (table : list Workspace.t) :
  subdomain <> "" ->
  let outcome :=
    run (getWorkspaceBySubdomainOrDefaultWorkspace env (Some subdomain)) table in
  snd outcome = {| rows := table;
                   journal := [RepositoryFindOne (WhereSubdomain subdomain)] |}
  /\ (forall w, fst outcome = Return (Some w) ->
        In w table /\ Workspace.subdomain w = subdomain)
  /\ (fst outcome = Return None
      <-> forall r, In r table -> Workspace.subdomain r <> subdomain)
  /\ (forall message, fst outcome <> Throw message).
Proof.
  intros Hne. unfold run, getWorkspaceBySubdomainOrDefaultWorkspace, truthy.
  destruct (String.eqb_spec subdomain "") as [He|_]; [contradiction|].
  cbn [negb]. run_m. cbn [app].
  split; [reflexivity|]. split; [|split].
  - intros w [= Hw]. now apply RepositoryFacts.find_matches_subdomain.
  - split.
    + intros [= Hnone] r Hr Heq.
      pose proof (find_none _ _ Hnone r Hr) as Hm. cbn in Hm.
      rewrite Heq, String.eqb_refl in Hm. discriminate Hm.
    + intros Hall. f_equal. apply find_none_of_all_false.
      intros r Hr. cbn. apply String.eqb_neq. now apply Hall.
  - discriminate.
Qed.

End MultiWorkspaceFacts.

(** The origin [https://crm.acme.org] finds the workspace that holds this
    custom domain. *)
Lemma multi_workspace_resolution_footprint_witness :
  In (TestSuite.tenant (Some "crm.acme.org") true)
     [TestSuite.tenant (Some "crm.acme.org") true]
  /\ exists key,
      getSubdomainAndCustomDomainFromUrl (api := TestPlatform.simple)
        (TestPlatform.exampleEnv true) "https://crm.acme.org" = Return key
      /\ match OriginKey.customDomain key with
         | Some d =>
             Workspace.customDomain (TestSuite.tenant (Some "crm.acme.org") true)
             = Some d
         | None =>
             OriginKey.subdomain key
             = Some (Workspace.subdomain
                       (TestSuite.tenant (Some "crm.acme.org") true))
         end.
Proof.
  destruct (multi_workspace_resolution_footprint (api := TestPlatform.simple)
              (TestPlatform.exampleEnv true) "https://crm.acme.org"
              [TestSuite.tenant (Some "crm.acme.org") true] eq_refl)
    as (_ & _ & _ & _ & Hfound).
  exact (Hfound _ eq_refl).
Defined.

(** The origin on the default subdomain finds nothing, though a workspace
    with the subdomain [app] is stored. *)
Lemma multi_workspace_no_key_witness :
  run (getWorkspaceByOriginOrDefaultWorkspace (api := TestPlatform.simple)
         (TestPlatform.exampleEnv true) "https://app.example.com")
      [ {| Workspace.subdomain := "app"; Workspace.customDomain := None;
           Workspace.isCustomDomainEnabled := false;
           Workspace.createdAt := 5 |} ]
  = (Return None,
     {| rows := [ {| Workspace.subdomain := "app";
                     Workspace.customDomain := None;
                     Workspace.isCustomDomainEnabled := false;
                     Workspace.createdAt := 5 |} ];
        journal := [] |}).
Proof.
  exact (multi_workspace_no_key (api := TestPlatform.simple)
           (TestPlatform.exampleEnv true) "https://app.example.com" _ _
           eq_refl eq_refl eq_refl eq_refl).
Defined.

(** An origin without scheme is not a URL for the stand-in platform. *)
Lemma multi_workspace_resolution_throws_witness :
  fst (run (getWorkspaceByOriginOrDefaultWorkspace (api := TestPlatform.simple)
              (TestPlatform.exampleEnv true) "acme.example.com")
           [TestSuite.tenant None false])
  = Throw "Invalid URL"
  /\ snd (run (getWorkspaceByOriginOrDefaultWorkspace
                 (api := TestPlatform.simple)
                 (TestPlatform.exampleEnv true) "acme.example.com")
              [TestSuite.tenant None false])
     = {| rows := [TestSuite.tenant None false]; journal := [] |}.
Proof.
  destruct (multi_workspace_resolution_throws (api := TestPlatform.simple)
              (TestPlatform.exampleEnv true) "acme.example.com" "Invalid URL"
              [TestSuite.tenant None false] eq_refl) as [Hiff Hworld].
  split.
  - apply Hiff. reflexivity.
  - apply Hworld. reflexivity.
Defined.

Lemma no_default_workspace_in_multi_mode_witness :
  run (getWorkspaceBySubdomainOrDefaultWorkspace (TestPlatform.exampleEnv true)
         (Some ""))
      [TestSuite.tenant None false]
  = (Throw "Default workspace not exist when multi-workspace is enabled",
     {| rows := [TestSuite.tenant None false]; journal := [] |}).
Proof.
  exact (no_default_workspace_in_multi_mode (TestPlatform.exampleEnv true)
           (Some "") [TestSuite.tenant None false] eq_refl eq_refl).
Defined.

Lemma workspace_by_subdomain_witness :
  In (TestSuite.tenant None false) [TestSuite.tenant None false]
  /\ Workspace.subdomain (TestSuite.tenant None false) = "acme".
Proof.
  destruct (workspace_by_subdomain (TestPlatform.exampleEnv true) "acme"
              [TestSuite.tenant None false] ltac:(discriminate))
    as (_ & Hfound & _).
  exact (Hfound _ eq_refl).
Defined.

(* ================================================================== *)
(** ** From a stored workspace to its URL and back *)
Section StoredWorkspaceRoundTrip.
Context {api : URLApi}.
Variable env : Environment.

Import JsString JsStringFacts.

Lemma find_of_match (q : Where) (table : list Workspace.t) (w : Workspace.t) :
  In w table -> matches q w = true ->
  exists w', find (matches q) table = Some w'.
Proof.
  intros Hin Hm. destruct (find (matches q) table) as [w'|] eqn:E.
  - now exists w'.
  - rewrite (find_none _ _ E w Hin) in Hm. discriminate Hm.
Qed.

(** X16.  In multi-workspace mode, the URL built for the subdomain of a
    stored workspace resolves to a stored workspace with that subdomain,
    when the subdomain is one non-empty label other than the default
    subdomain and the platform keeps the hostname it is given. *)
Theorem subdomain_url_resolves (front : URL) (table : list Workspace.t)
    (w : Workspace.t) :
  IS_MULTIWORKSPACE_ENABLED env = true ->
  getFrontUrl env = Return front ->
  In w table ->
  Workspace.subdomain w <> "" ->
  DEFAULT_SUBDOMAIN env <> Some (Workspace.subdomain w) ->
  leadingLabel (Workspace.subdomain w ++ "." ++ URL_hostname front)
    = Workspace.subdomain w ->
  hostnameSurvives front (Workspace.subdomain w ++ "." ++ URL_hostname front) ->
  exists url w',
    getTwentyWorkspaceUrl env (Workspace.subdomain w) = Return url
    /\ fst (run (getWorkspaceByOriginOrDefaultWorkspace env url) table)
       = Return (Some w')
    /\ In w' table
    /\ Workspace.subdomain w' = Workspace.subdomain w.
Proof.
  intros Hmulti Hf Hin Hne Hdefault Hlabel [Hhost Hparse].
  eexists. unfold getTwentyWorkspaceUrl. rewrite Hf. cbn [obind].
  destruct (find_of_match (WhereSubdomain (Workspace.subdomain w)) table w Hin)
    as [w' Hfind]; [cbn; apply String.eqb_refl|].
  exists w'. split; [reflexivity|].
  unfold run. rewrite (getWorkspaceByOrigin_multi_run env _ _ Hmulti).
  rewrite (key_of_label env _ _ front _ Hparse Hf Hhost Hlabel).
  replace (isDefaultSubdomain env (Workspace.subdomain w)) with false.
  - cbn [OriginKey.customDomain OriginKey.subdomain truthy_opt negb andb
         isDefined option_map rows].
    unfold truthy.
    destruct (String.eqb_spec (Workspace.subdomain w) "") as [He|_];
      [contradiction|].
    cbn [negb fst]. rewrite Hfind.
    destruct (RepositoryFacts.find_matches_subdomain _ _ _ Hfind) as [Hin' Hs].
    now repeat split.
  - symmetry. unfold isDefaultSubdomain.
    destruct (opt_eqb _ _) eqn:E; [|reflexivity].
    apply opt_eqb_eq in E. now contradiction Hdefault.
Qed.

(** X17.  In multi-workspace mode, the URL built for the custom domain of a
    stored workspace resolves to a stored workspace that holds this custom
    domain, whether or not the custom domain is enabled, when the domain is
    not empty, does not end with ["." ++ frontDomain], and the platform
    keeps the hostname it is given. *)
Theorem custom_url_resolves (front : URL) (table : list Workspace.t)
    (w : Workspace.t) (d : string) :
  IS_MULTIWORKSPACE_ENABLED env = true ->
  getFrontUrl env = Return front ->
  In w table ->
  Workspace.customDomain w = Some d ->
  d <> "" ->
  endsWith d ("." ++ URL_hostname front) = false ->
  hostnameSurvives front d ->
  exists url w',
    getCustomWorkspaceUrl env d = Return url
    /\ fst (run (getWorkspaceByOriginOrDefaultWorkspace env url) table)
       = Return (Some w')
    /\ In w' table
    /\ Workspace.customDomain w' = Some d.
Proof.
  intros Hmulti Hf Hin Hd Hne Hends [Hhost Hparse].
  eexists. unfold getCustomWorkspaceUrl. rewrite Hf. cbn [obind].
  destruct (find_of_match (WhereCustomDomain d) table w Hin) as [w' Hfind].
  { cbn. rewrite Hd. cbn. apply String.eqb_refl. }
  exists w'. split; [reflexivity|].
  unfold run. rewrite (getWorkspaceByOrigin_multi_run env _ _ Hmulti).
  rewrite (getSubdomainAndCustomDomainFromUrl_eq env _ _ front Hparse Hf).
  cbv zeta. rewrite Hhost, Hends.
  cbn [OriginKey.customDomain OriginKey.subdomain truthy_opt negb andb
       isDefined option_map rows].
  unfold truthy. destruct (String.eqb_spec d "") as [He|_]; [contradiction|].
  cbn [negb andb fst]. rewrite Hfind.
  apply find_some in Hfind as [Hin' Hm]. apply opt_eqb_eq in Hm.
  now repeat split.
Qed.

End StoredWorkspaceRoundTrip.

Lemma subdomain_url_resolves_witness :
  exists url w',
    getTwentyWorkspaceUrl (api := TestPlatform.simple)
      (TestPlatform.exampleEnv true) "acme" = Return url
    /\ fst (run (getWorkspaceByOriginOrDefaultWorkspace
                  (api := TestPlatform.simple)
                  (TestPlatform.exampleEnv true) url)
               [TestSuite.tenant None false])
       = Return (Some w')
    /\ In w' [TestSuite.tenant None false]
    /\ Workspace.subdomain w' = "acme".
Proof.
  apply (subdomain_url_resolves (api := TestPlatform.simple)
           (TestPlatform.exampleEnv true) _ [TestSuite.tenant None false]
           (TestSuite.tenant None false) eq_refl eq_refl).
  - now left.
  - discriminate.
  - discriminate.
  - reflexivity.
  - split; reflexivity.
Defined.

(** The custom domain is not enabled, and the workspace is found all the
    same. *)
Lemma custom_url_resolves_witness :
  exists url w',
    getCustomWorkspaceUrl (api := TestPlatform.simple)
      (TestPlatform.exampleEnv true) "crm.acme.org" = Return url
    /\ fst (run (getWorkspaceByOriginOrDefaultWorkspace
                  (api := TestPlatform.simple)
                  (TestPlatform.exampleEnv true) url)
               [TestSuite.tenant (Some "crm.acme.org") false])
       = Return (Some w')
    /\ In w' [TestSuite.tenant (Some "crm.acme.org") false]
    /\ Workspace.customDomain w' = Some "crm.acme.org".
Proof.
  apply (custom_url_resolves (api := TestPlatform.simple)
           (TestPlatform.exampleEnv true) _
           [TestSuite.tenant (Some "crm.acme.org") false]
           (TestSuite.tenant (Some "crm.acme.org") false) "crm.acme.org"
           eq_refl eq_refl).
  - now left.
  - reflexivity.
  - discriminate.
  - reflexivity.
  - split; reflexivity.
Defined.

(* ================================================================== *)
(** ** The URLs and domains of a workspace, continued *)
Section WorkspaceUrlMore.
Context {api : URLApi}.
Variable env : Environment.

Import JsString.

(** X18.  [getWorkspaceUrls] throws exactly when the front URL cannot be
    built.  When it returns, there is a custom URL exactly when the custom
    domain is enabled and is a non-empty string; the subdomain URL is there
    in every case. *)
Theorem getWorkspaceUrls_customUrl (workspace : Workspace.t) :
  (forall message,
      getWorkspaceUrls env workspace = Throw message
      <-> getFrontUrl env = Throw message)
  /\ (forall urls,
        getWorkspaceUrls env workspace = Return urls ->
        (WorkspaceUrls.customUrl urls <> None
         <-> Workspace.isCustomDomainEnabled workspace = true
             /\ exists d, Workspace.customDomain workspace = Some d /\ d <> "")).
Proof.
  destruct (getFrontUrl env) as [front|m] eqn:Hf.
  - rewrite (getWorkspaceUrls_eq env workspace front Hf). split.
    + intros message. split; discriminate.
    + intros urls [= <-]. cbn [WorkspaceUrls.customUrl].
      destruct (Workspace.customDomain workspace) as [d|].
      * unfold truthy.
        destruct (Workspace.isCustomDomainEnabled workspace);
          destruct (String.eqb_spec d "") as [He|He]; cbn [andb negb].
        -- split; [intros H; now contradiction H|].
           intros [_ (d' & [= <-] & Hne)]. contradiction.
        -- split; [|discriminate].
           intros _. split; [reflexivity|]. now exists d.
        -- split; [intros H; now contradiction H|].
           intros [H _]. discriminate H.
        -- split; [intros H; now contradiction H|].
           intros [H _]. discriminate H.
      * split; [intros H; now contradiction H|].
        intros [_ (d & H & _)]. discriminate H.
  - split.
    + intros message.
      unfold getWorkspaceUrls, getCustomWorkspaceUrl, getTwentyWorkspaceUrl.
      rewrite Hf.
      destruct (Workspace.customDomain workspace) as [d|];
        [destruct (Workspace.isCustomDomainEnabled workspace && truthy d)|];
        cbn [obind]; split; intros [= ->]; reflexivity.
    + intros urls.
      unfold getWorkspaceUrls, getCustomWorkspaceUrl, getTwentyWorkspaceUrl.
      rewrite Hf.
      destruct (Workspace.customDomain workspace) as [d|];
        [destruct (Workspace.isCustomDomainEnabled workspace && truthy d)|];
        cbn [obind]; discriminate.
Qed.

(** X19.  The domains of a workspace with fallback never show a custom
    domain that is not enabled: a custom domain in the result is the custom
    domain of a workspace that was given, with [isCustomDomainEnabled]
    set.  Without workspace the subdomain is the default subdomain. *)
Theorem fallback_exposes_enabled_only (workspace : option Workspace.t) :
  (forall d,
      DomainFallback.customDomain
        (getSubdomainAndCustomDomainFromWorkspaceFallbackOnDefaultSubdomain
           env workspace) = Some d ->
      exists w, workspace = Some w
                /\ Workspace.isCustomDomainEnabled w = true
                /\ Workspace.customDomain w = Some d)
  /\ DomainFallback.subdomain
       (getSubdomainAndCustomDomainFromWorkspaceFallbackOnDefaultSubdomain
          env None) = DEFAULT_SUBDOMAIN env.
Proof.
  unfold getSubdomainAndCustomDomainFromWorkspaceFallbackOnDefaultSubdomain.
  split.
  - intros d. destruct workspace as [w|]; [|discriminate].
    destruct (Workspace.isCustomDomainEnabled w) eqn:Hflag; cbn; [|discriminate].
    intros Hd. exists w. now repeat split.
  - reflexivity.
Qed.

(** X20.  The two views of a workspace agree: whenever [getWorkspaceUrls]
    has a custom URL for a workspace, the domains with fallback show the
    custom domain of that workspace, and it is not null. *)
Theorem customUrl_implies_fallback_customDomain (workspace : Workspace.t)
    (urls : WorkspaceUrls.t) :
  getWorkspaceUrls env workspace = Return urls ->
  WorkspaceUrls.customUrl urls <> None ->
  DomainFallback.customDomain
    (getSubdomainAndCustomDomainFromWorkspaceFallbackOnDefaultSubdomain
       env (Some workspace))
  = Workspace.customDomain workspace
  /\ Workspace.customDomain workspace <> None.
Proof.
  intros Hurls Hcustom.
  destruct (getFrontUrl env) as [front|m] eqn:Hf.
  - rewrite (getWorkspaceUrls_eq env workspace front Hf) in Hurls.
    injection Hurls as <-. cbn [WorkspaceUrls.customUrl] in Hcustom.
    unfold getSubdomainAndCustomDomainFromWorkspaceFallbackOnDefaultSubdomain.
    destruct (Workspace.customDomain workspace) as [d|] eqn:Hd;
      [|now contradiction Hcustom].
    destruct (Workspace.isCustomDomainEnabled workspace); cbn [andb] in Hcustom;
      [|now contradiction Hcustom].
    cbn. rewrite Hd. split; [reflexivity | discriminate].
  - unfold getWorkspaceUrls, getCustomWorkspaceUrl, getTwentyWorkspaceUrl
      in Hurls.
    rewrite Hf in Hurls.
    destruct (Workspace.customDomain workspace) as [d|];
      [destruct (Workspace.isCustomDomainEnabled workspace && truthy d)|];
      discriminate Hurls.
Qed.

(** X21.  The URL to verify an email is the URL of the workspace with the
    pathname [verify-email] and with both search parameters set, the token
    first and the email second; a parameter is set even when its value is
    the empty string.  The URL of the error redirect has the pathname
    [/verify] and the parameter [errorMessage], and is serialised. *)
Theorem verification_and_error_urls (workspace : Workspace.t)
    (token email errorMessage : string) :
  buildEmailVerificationURL env token email workspace
  = obind (buildWorkspaceURL env workspace (Some "verify-email") None)
      (fun url =>
         Return (URL_searchParams_set
                   (URL_searchParams_set url "emailVerificationToken" token)
                   "email" email))
  /\ computeRedirectErrorUrl env errorMessage workspace
     = obind (buildWorkspaceURL env workspace (Some "/verify") None)
         (fun url =>
            Return (URL_toString
                      (URL_searchParams_set url "errorMessage" errorMessage))).
Proof.
  unfold buildEmailVerificationURL, computeRedirectErrorUrl, buildWorkspaceURL.
  destruct (getWorkspaceUrls env workspace) as [urls|m]; cbn [obind];
    [|split; reflexivity].
  destruct (URL_new _) as [url|m]; cbn [obind]; split; reflexivity.
Qed.

End WorkspaceUrlMore.

Lemma getWorkspaceUrls_customUrl_witness :
  WorkspaceUrls.customUrl
    {| WorkspaceUrls.customUrl := Some "https://crm.acme.org/";
       WorkspaceUrls.subdomainUrl := "https://acme.example.com/" |} <> None.
Proof.
  destruct (getWorkspaceUrls_customUrl (api := TestPlatform.simple)
              (TestPlatform.exampleEnv true)
              (TestSuite.tenant (Some "crm.acme.org") true)) as [_ Hcustom].
  apply (Hcustom _ eq_refl). split; [reflexivity|].
  exists "crm.acme.org". split; [reflexivity | discriminate].
Defined.

Lemma fallback_exposes_enabled_only_witness :
  exists w, Some (TestSuite.tenant (Some "crm.acme.org") true) = Some w
            /\ Workspace.isCustomDomainEnabled w = true
            /\ Workspace.customDomain w = Some "crm.acme.org".
Proof.
  exact (proj1 (fallback_exposes_enabled_only (TestPlatform.exampleEnv true)
                  (Some (TestSuite.tenant (Some "crm.acme.org") true)))
               "crm.acme.org" eq_refl).
Defined.

Lemma customUrl_implies_fallback_customDomain_witness :
  DomainFallback.customDomain
    (getSubdomainAndCustomDomainFromWorkspaceFallbackOnDefaultSubdomain
       (TestPlatform.exampleEnv true)
       (Some (TestSuite.tenant (Some "crm.acme.org") true)))
  = Some "crm.acme.org"
  /\ Some "crm.acme.org" <> None.
Proof.
  apply (customUrl_implies_fallback_customDomain (api := TestPlatform.simple)
           (TestPlatform.exampleEnv true)
           (TestSuite.tenant (Some "crm.acme.org") true) _ eq_refl).
  discriminate.
Defined.

(* ================================================================== *)
(** ** The cache storage, continued *)

(** X22.  What the factory says when it throws.  For the Redis storage
    without [REDIS_URL] the message carries the missing value itself, the
    word [undefined] or nothing at all for the empty string, where the name
    of the setting was to be expected; for a storage type that is neither
    Memory nor Redis the message carries the type. *)
Theorem cacheStorageModuleFactory_messages (env : Environment) :
  (CACHE_STORAGE_TYPE env = CacheStorageType.Redis ->
   REDIS_URL env = None ->
   cacheStorageModuleFactory env
   = Throw "redis cache storage requires undefined to be defined, check your .env file")
  /\ (CACHE_STORAGE_TYPE env = CacheStorageType.Redis ->
      REDIS_URL env = Some "" ->
      cacheStorageModuleFactory env
      = Throw "redis cache storage requires  to be defined, check your .env file")
  /\ (CACHE_STORAGE_TYPE env <> CacheStorageType.Memory ->
      CACHE_STORAGE_TYPE env <> CacheStorageType.Redis ->
      cacheStorageModuleFactory env
      = Throw ("Invalid cache-storage (" ++ CACHE_STORAGE_TYPE env
               ++ "), check your .env file")).
Proof.
  unfold cacheStorageModuleFactory. cbv zeta. split; [|split].
  - intros -> ->. reflexivity.
  - intros -> ->. reflexivity.
  - intros Hmem Hredis.
    destruct (String.eqb_spec (CACHE_STORAGE_TYPE env) CacheStorageType.Memory);
      [contradiction|].
    destruct (String.eqb_spec (CACHE_STORAGE_TYPE env) CacheStorageType.Redis);
      [contradiction|].
    reflexivity.
Qed.

Lemma cacheStorageModuleFactory_messages_witness :
  cacheStorageModuleFactory (TestPlatform.redisEnv None)
  = Throw "redis cache storage requires undefined to be defined, check your .env file"
  /\ cacheStorageModuleFactory (TestPlatform.redisEnv (Some ""))
     = Throw "redis cache storage requires  to be defined, check your .env file"
  /\ cacheStorageModuleFactory
       {| FRONT_PORT := None; FRONT_DOMAIN := None; FRONT_PROTOCOL := None;
          SERVER_URL := "http://localhost:3000";
          IS_MULTIWORKSPACE_ENABLED := false; DEFAULT_SUBDOMAIN := None;
          CACHE_STORAGE_TYPE := "memcached"; CACHE_STORAGE_TTL := 5%Z;
          REDIS_URL := None |}
     = Throw "Invalid cache-storage (memcached), check your .env file".
Proof.
  split; [|split].
  - exact (proj1 (cacheStorageModuleFactory_messages (TestPlatform.redisEnv None))
                 eq_refl eq_refl).
  - exact (proj1 (proj2 (cacheStorageModuleFactory_messages
                           (TestPlatform.redisEnv (Some ""))))
                 eq_refl eq_refl).
  - apply (proj2 (proj2 (cacheStorageModuleFactory_messages
             {| FRONT_PORT := None; FRONT_DOMAIN := None;
                FRONT_PROTOCOL := None;
                SERVER_URL := "http://localhost:3000";
                IS_MULTIWORKSPACE_ENABLED := false;
                DEFAULT_SUBDOMAIN := None;
                CACHE_STORAGE_TYPE := "memcached";
                CACHE_STORAGE_TTL := 5%Z;
                REDIS_URL := None |}))); discriminate.
Defined.

(* ================================================================== *)
(** ** Validation of a custom domain, continued *)

(** X23.  One record whose status is not [success] is enough for a custom
    domain not to work, wherever the record stands and whatever the other
    records say. *)
Theorem isCustomDomainWorking_one_failure (details : CustomDomainValidRecords)
    (r : CustomDomainRecord) :
  In r (records details) ->
  status r <> "success" ->
  isCustomDomainWorking details = false.
Proof.
  intros Hin Hstatus.
  destruct (isCustomDomainWorking details) eqn:E; [|reflexivity].
  unfold isCustomDomainWorking in E. rewrite forallb_forall in E.
  specialize (E r Hin). apply String.eqb_eq in E. contradiction.
Qed.

Lemma isCustomDomainWorking_one_failure_witness :
  isCustomDomainWorking
    {| records := [ {| status := "success" |}; {| status := "pending" |};
                    {| status := "success" |} ] |} = false.
Proof.
  apply (isCustomDomainWorking_one_failure _ {| status := "pending" |}).
  - right. left. reflexivity.
  - discriminate.
Defined.

(* ================================================================== *)
(** ** Feature flags *)

(** X24.  No two members of [FeatureFlagKey] stand for the same string. *)
Theorem FeatureFlagKey_value_injective (a b : FeatureFlagKey) :
  FeatureFlagKey_value a = FeatureFlagKey_value b -> a = b.
Proof.
  destruct a, b; intros H; try reflexivity; discriminate H.
Qed.

Lemma FeatureFlagKey_value_injective_witness :
  IsWorkflowEnabled = IsWorkflowEnabled.
Proof.
  exact (FeatureFlagKey_value_injective IsWorkflowEnabled IsWorkflowEnabled
           eq_refl).
Defined.

(* ================================================================== *)
(** ** Building the URL of a workspace, continued *)
Section BuildWorkspaceUrlMore.
Context {api : URLApi}.
Variable env : Environment.

Lemma definedEntries_none (entries : SearchParams) :
  (forall entry, In entry entries -> snd entry = None) ->
  definedEntries entries = [].
Proof.
  induction entries as [|[key value] entries IH]; intros H; [reflexivity|].
  unfold definedEntries. cbn [flat_map].
  rewrite (H (key, value) (or_introl eq_refl)). cbn [app].
  apply IH. intros entry Hin. apply H. now right.
Qed.

(** X25.  Search parameters of which none holds a value are as good as no
    search parameters, and the empty pathname is as good as no pathname:
    the URL that is built is the same. *)
Theorem buildWorkspaceURL_nothing_to_apply (workspace : Workspace.t)
    (entries : SearchParams) :
  (forall entry, In entry entries -> snd entry = None) ->
  buildWorkspaceURL env workspace (Some "") (Some entries)
  = buildWorkspaceURL env workspace None None.
Proof.
  intros Hnone. unfold buildWorkspaceURL.
  destruct (getWorkspaceUrls env workspace) as [urls|m]; cbn [obind];
    [|reflexivity].
  destruct (URL_new _) as [url|m]; cbn [obind]; [|reflexivity].
  cbn [JsString.truthy_opt JsString.truthy String.eqb negb].
  now rewrite fold_setSearchParam, (definedEntries_none entries Hnone).
Qed.

End BuildWorkspaceUrlMore.

Lemma buildWorkspaceURL_nothing_to_apply_witness :
  buildWorkspaceURL (api := TestPlatform.simple) (TestPlatform.exampleEnv true)
    (TestSuite.tenant None false) (Some "")
    (Some [("token", None); ("email", None)])
  = buildWorkspaceURL (api := TestPlatform.simple) (TestPlatform.exampleEnv true)
      (TestSuite.tenant None false) None None.
Proof.
  apply (buildWorkspaceURL_nothing_to_apply (api := TestPlatform.simple)).
  intros entry [<-|[<-|[]]]; reflexivity.
Defined.

(** Without front domain and with a server URL that is no URL, nothing can
    be built. *)
Lemma buildWorkspaceURL_throws_witness :
  buildWorkspaceURL (api := TestPlatform.simple)
    {| FRONT_PORT := None; FRONT_DOMAIN := None; FRONT_PROTOCOL := None;
       SERVER_URL := "localhost";
       IS_MULTIWORKSPACE_ENABLED := false; DEFAULT_SUBDOMAIN := None;
       CACHE_STORAGE_TYPE := "memory"; CACHE_STORAGE_TTL := 5%Z;
       REDIS_URL := None |}
    (TestSuite.tenant None false) None None
  = Throw "Invalid URL".
Proof.
  exact (buildWorkspaceURL_throws (api := TestPlatform.simple)
           {| FRONT_PORT := None; FRONT_DOMAIN := None; FRONT_PROTOCOL := None;
              SERVER_URL := "localhost";
              IS_MULTIWORKSPACE_ENABLED := false; DEFAULT_SUBDOMAIN := None;
              CACHE_STORAGE_TYPE := "memory"; CACHE_STORAGE_TTL := 5%Z;
              REDIS_URL := None |}
           (TestSuite.tenant None false) None None "Invalid URL" eq_refl).
Defined.
